(** * Campaign handlers of CRITs ([crits/campaigns/handlers.py])

    A shallow embedding of the campaign registry and of the campaign
    attribution handlers, over an explicit document store, together
    with the properties the specification states about them.

    The handlers are Python 2 code over mongoengine documents.  What a
    handler does is translated line by line; the collaborators it
    calls but which live in other modules of the project (the
    embedded-campaign methods of a top-level object, the class mapper,
    the schema validation run by [save]) are either parameters of the
    development or definitions written from the specification, and
    are marked as such. *)

From Stdlib Require Import ZArith Ascii.
From stdpp Require Import gmap strings list fin_maps pretty sorting.


(** ** Python values that the handlers return *)

Inductive PyValue :=
| PyBool (b : bool)
| PyStr (s : string)
| PyList (l : list string).

(** A dict literal, keys in the order the source writes them. *)
Definition PyDict := list (string * PyValue).

Fixpoint dict_get (k : string) (d : PyDict) : option PyValue :=
  match d with
  | [] => None
  | (k', v) :: d' => if String.eqb k' k then Some v else dict_get k d'
  end.

Definition succeeded (d : PyDict) : bool :=
  match dict_get "success" d with
  | Some (PyBool b) => b
  | _ => false
  end.

(** Exceptions that can leave a handler. *)
Inductive PyException :=
| NameError (name : string)
| ValidationError (msg : string).

Inductive Outcome (A : Type) :=
| Returned (a : A)
| Raised (e : PyException).
Arguments Returned {A} a.
Arguments Raised {A} e.

(** A call succeeded: it returned a dict whose success flag is set. *)
Definition call_succeeded (o : Outcome PyDict) : bool :=
  match o with
  | Returned d => succeeded d
  | Raised _ => false
  end.

(** Truth value of an optional string argument ([None] and [''] are false). *)
Definition truthy (o : option string) : bool :=
  match o with
  | Some s => negb (String.eqb s "")
  | None => false
  end.

(** ** [str.split(',')] and [str.strip()] *)

(** [str.strip()] of a Python 2 byte string removes the characters of
    [string.whitespace]: tab, line feed, vertical tab, form feed,
    carriage return and space. *)
Definition is_whitespace (c : ascii) : bool :=
  let n := nat_of_ascii c in
  Nat.eqb n 32 || (Nat.leb 9 n && Nat.leb n 13).

Fixpoint lstrip (s : string) : string :=
  match s with
  | EmptyString => EmptyString
  | String c s' => if is_whitespace c then lstrip s' else s
  end.

Fixpoint rstrip (s : string) : string :=
  match s with
  | EmptyString => EmptyString
  | String c s' =>
      match rstrip s' with
      | EmptyString => if is_whitespace c then EmptyString else String c EmptyString
      | r => String c r
      end
  end.

Definition strip (s : string) : string := rstrip (lstrip s).

(** [s.split(sep)] for a one-character separator: every occurrence
    cuts, empty pieces are kept, and the empty string gives [['']]. *)
Fixpoint split (sep : ascii) (s : string) : list string :=
  match s with
  | EmptyString => [EmptyString]
  | String c s' =>
      if Ascii.eqb c sep then EmptyString :: split sep s'
      else match split sep s' with
           | [] => [String c EmptyString]
           | p :: ps => String c p :: ps
           end
  end.

Definition comma : ascii := ","%char.

(** A string starts (ends) with a whitespace character. *)
Definition leading_space (s : string) : bool :=
  match s with
  | EmptyString => false
  | String c _ => is_whitespace c
  end.

Fixpoint trailing_space (s : string) : bool :=
  match s with
  | EmptyString => false
  | String c EmptyString => is_whitespace c
  | String _ s' => trailing_space s'
  end.

(** ** Data model *)

(** [crits.core.crits_mongoengine.EmbeddedCampaign]: one attribution,
    embedded in the top-level object it belongs to.  [ec_date] is the
    time of attribution; the constructor fills it with the current
    time when the caller gives none. *)
Record EmbeddedCampaign := {
  ec_name : string;
  ec_confidence : string;
  ec_description : string;
  ec_analyst : string;
  ec_date : Z
}.

(** An edge of the relationship graph, as embedded in its source
    object: the type tag and the id of the other end, and the name of
    the relationship. *)
Record Relationship := {
  rel_type : string;
  object_id : string;
  relationship : string
}.

(** What the document store keeps for a top-level object. *)
Record Document := {
  campaign : list EmbeddedCampaign;
  relationships : list Relationship
}.

(** A top-level object loaded in memory: the type tag and id it was
    loaded from (and is saved to) and its fields. *)
Record TopLevel := {
  tl_type : string;
  tl_id : string;
  tl_doc : Document
}.

(** [crits.campaigns.campaign.Campaign], the registry entity.  [c_id]
    is [None] until the first save. *)
Record Campaign := {
  c_id : option string;
  c_name : string;
  c_description : string;
  c_aliases : list string;
  c_bucket_list : list string;
  c_tickets : list string;
  c_relationships : list Relationship
}.

(** The document store: the Campaign collection, the collections of
    the other top-level objects keyed by type tag and id, and the
    supply of object ids. *)
Record DB := {
  db_campaigns : list Campaign;
  db_objects : gmap (string * string) Document;
  db_next_oid : nat
}.

(** The [aliases] argument of [add_campaign]: a [str], a [list] of
    strings, or a value of any other type ([None], a number, and in
    Python 2 a [unicode] string, which is not a [str]). *)
Inductive AliasArg :=
| AliasStr (s : string)
| AliasList (l : list string)
| AliasOther.

(** ** Collaborators outside [handlers.py]

    Parameters of the development: nothing is assumed about them.

    - [class_from_type] ([crits.core.class_mapper]): whether a type
      tag names a class of top-level objects; a class and its
      collection are identified by the tag.
    - [validate], [validate_campaign]: the schema validation that
      [save] runs; [Some msg] stands for [ValidationError(msg)].
    - [embed_check]: the validation of the embed step, whose failure
      [campaign_add] reports with the message of the result;
      [Some msg] is that message.
    - [assigned_message], [not_found_message]: the texts of the
      results of the embedded-campaign methods.
    - [format_campaign]: the rendering of an attribution.
    - [inverse]: [RelationshipTypes.inverse].
    - [new_object_id]: the id given to the n-th new document. *)
Class Collaborators := {
  class_from_type : string -> bool;
  validate : TopLevel -> option string;
  validate_campaign : Campaign -> option string;
  embed_check : EmbeddedCampaign -> option string;
  assigned_message : string;
  not_found_message : string;
  format_campaign : TopLevel -> EmbeddedCampaign -> string -> string;
  inverse : string -> string;
  new_object_id : nat -> string
}.

Definition key (self : TopLevel) : string * string := (tl_type self, tl_id self).

Definition with_campaign (self : TopLevel) (l : list EmbeddedCampaign) : TopLevel :=
  {| tl_type := tl_type self;
     tl_id := tl_id self;
     tl_doc := {| campaign := l; relationships := relationships (tl_doc self) |} |}.

Definition with_objects (db : DB) (m : gmap (string * string) Document) : DB :=
  {| db_campaigns := db_campaigns db; db_objects := m; db_next_oid := db_next_oid db |}.

(** The result dict of an embedded-campaign method. *)
Record MethodResult := {
  r_success : bool;
  r_message : string
}.

Definition same_name (n : string) (c : EmbeddedCampaign) : bool :=
  String.eqb (ec_name c) n.

Definition has_campaign (n : string) (l : list EmbeddedCampaign) : bool :=
  existsb (same_name n) l.

(** The entries of a campaign list that carry a given name. *)
Definition entries_named (n : string) (l : list EmbeddedCampaign) : list EmbeddedCampaign :=
  List.filter (same_name n) l.

(** The invariant of the data model: at most one entry per name. *)
Definition unique_names (l : list EmbeddedCampaign) : Prop :=
  NoDup (ec_name <$> l).

Definition db_unique_names (db : DB) : Prop :=
  forall k d, db_objects db !! k = Some d -> unique_names (campaign d).

Section Methods.
Context `{Collaborators}.

(** *** Methods of a top-level object *)

(** Modelled from the spec: the merge of an attribution into the entry
    of the same name (the method [add_campaign] of a top-level object
    is not in [handlers.py]).  Only the confidence and the description
    are updated, in place; name, analyst and date stay those of the
    entry.  The spec lets an analyst or date that is explicitly
    provided replace the original one; the item that [campaign_add]
    builds provides neither: its analyst is the user making the call
    and its date is the default, the time of the call. *)
Fixpoint merge_campaign (item : EmbeddedCampaign) (l : list EmbeddedCampaign)
  : list EmbeddedCampaign :=
  match l with
  | [] => []
  | c :: cs =>
      if same_name (ec_name item) c
      then {| ec_name := ec_name c;
              ec_confidence := ec_confidence item;
              ec_description := ec_description item;
              ec_analyst := ec_analyst c;
              ec_date := ec_date c |} :: cs
      else c :: merge_campaign item cs
  end.

(** Modelled from the spec: [obj.add_campaign(campaign_item, update)],
    the campaign-list mutator of a top-level object, which is not in
    [handlers.py].  With an entry of the same name present, the merge
    policy applies when [update] holds, and otherwise the entry is
    left untouched and the call is a successful no-op; with none, the
    item is appended.  The embed step can report a failure; the spec
    leaves open what it rejects (a parameter here), and it is placed
    on the paths that write because the no-op is reported as success
    whatever the item. *)
Definition obj_add_campaign (self : TopLevel) (campaign_item : EmbeddedCampaign)
    (update : bool) : TopLevel * MethodResult :=
  let ok := {| r_success := true; r_message := assigned_message |} in
  if has_campaign (ec_name campaign_item) (campaign (tl_doc self)) then
    if update then
      match embed_check campaign_item with
      | Some msg => (self, {| r_success := false; r_message := msg |})
      | None =>
          (with_campaign self (merge_campaign campaign_item (campaign (tl_doc self))), ok)
      end
    else (self, ok)
  else
    match embed_check campaign_item with
    | Some msg => (self, {| r_success := false; r_message := msg |})
    | None => (with_campaign self (campaign (tl_doc self) ++ [campaign_item]), ok)
    end.

(** Modelled from the spec: the replacement that an edit makes in the
    entry of the same name (confidence, description and date), for the
    method [edit_campaign], which is not in [handlers.py]. *)
Fixpoint replace_campaign (item : EmbeddedCampaign) (l : list EmbeddedCampaign)
  : list EmbeddedCampaign :=
  match l with
  | [] => []
  | c :: cs =>
      if same_name (ec_name item) c
      then {| ec_name := ec_name c;
              ec_confidence := ec_confidence item;
              ec_description := ec_description item;
              ec_analyst := ec_analyst c;
              ec_date := ec_date item |} :: cs
      else c :: replace_campaign item cs
  end.

(** Modelled from the spec: [obj.edit_campaign(campaign_item)], which
    is not in [handlers.py]: replaces confidence, description and date
    of the entry with the name of the item, and reports the missing
    entry when there is none. *)
Definition obj_edit_campaign (self : TopLevel) (campaign_item : EmbeddedCampaign)
  : TopLevel * MethodResult :=
  if has_campaign (ec_name campaign_item) (campaign (tl_doc self)) then
    (with_campaign self (replace_campaign campaign_item (campaign (tl_doc self))),
     {| r_success := true; r_message := assigned_message |})
  else (self, {| r_success := false; r_message := not_found_message |}).

(** Modelled from the spec: the deletion of the entry of a given name,
    for the method [remove_campaign], which is not in [handlers.py]. *)
Fixpoint delete_campaign (n : string) (l : list EmbeddedCampaign)
  : list EmbeddedCampaign :=
  match l with
  | [] => []
  | c :: cs => if same_name n c then cs else c :: delete_campaign n cs
  end.

(** Modelled from the spec: [obj.remove_campaign(name)], which is not
    in [handlers.py]: deletes the matching entry by name, and reports
    the missing entry when there is none. *)
Definition obj_remove_campaign (self : TopLevel) (campaign_name : string)
  : TopLevel * MethodResult :=
  if has_campaign campaign_name (campaign (tl_doc self)) then
    (with_campaign self (delete_campaign campaign_name (campaign (tl_doc self))),
     {| r_success := true; r_message := assigned_message |})
  else (self, {| r_success := false; r_message := not_found_message |}).

(** Modelled from the spec: [obj.save(username)] of the document store,
    [save(object, actor) -> success | ValidationFailed(detail)]: the
    document replaces the stored one unless validation rejects it, in
    which case [ValidationError] is raised and nothing is written. *)
Definition save (self : TopLevel) (username : string) (db : DB) : Outcome unit * DB :=
  match validate self with
  | Some e => (Raised (ValidationError e), db)
  | None => (Returned tt, with_objects db (<[key self := tl_doc self]> (db_objects db)))
  end.

(** Modelled from the spec: [class_from_id(type, id)] of
    [crits.core.class_mapper], the object resolver
    [resolve(typeTag, id) -> object | NotFound]. *)
Definition class_from_id (type_ _id : string) (db : DB) : option TopLevel :=
  if class_from_type type_ then
    match db_objects db !! (type_, _id) with
    | Some d => Some {| tl_type := type_; tl_id := _id; tl_doc := d |}
    | None => None
    end
  else None.

End Methods.

Section Registry.
Context `{Collaborators}.

(** *** Methods of a Campaign *)

Definition str_id (i : option string) : string := default "None" i.

(** Modelled from the spec: the constructor [Campaign(name=name)] of
    [crits.campaigns.campaign], which is not in [handlers.py]; a new
    Campaign has no id yet and every other field empty. *)
Definition new_campaign (name : string) : Campaign :=
  {| c_id := None; c_name := name; c_description := ""; c_aliases := [];
     c_bucket_list := []; c_tickets := []; c_relationships := [] |}.

(** Modelled from the spec: [campaign.edit_description(description)],
    which is not in [handlers.py]; sets the description. *)
Definition edit_description (self : Campaign) (description : string) : Campaign :=
  {| c_id := c_id self; c_name := c_name self; c_description := description;
     c_aliases := c_aliases self; c_bucket_list := c_bucket_list self;
     c_tickets := c_tickets self; c_relationships := c_relationships self |}.

(** Modelled from the spec: [campaign.add_bucket_list(tags, analyst)],
    which is not in [handlers.py]; the spec says no more than that the
    Campaign carries bucket tags, so the value is recorded as given. *)
Definition add_bucket_list (self : Campaign) (tags analyst : string) : Campaign :=
  {| c_id := c_id self; c_name := c_name self; c_description := c_description self;
     c_aliases := c_aliases self; c_bucket_list := c_bucket_list self ++ [tags];
     c_tickets := c_tickets self; c_relationships := c_relationships self |}.

(** Modelled from the spec: [campaign.add_ticket(tickets, analyst)],
    which is not in [handlers.py]; recorded as given, like the tags. *)
Definition add_ticket (self : Campaign) (tickets analyst : string) : Campaign :=
  {| c_id := c_id self; c_name := c_name self; c_description := c_description self;
     c_aliases := c_aliases self; c_bucket_list := c_bucket_list self;
     c_tickets := c_tickets self ++ [tickets]; c_relationships := c_relationships self |}.

(** Modelled from the spec: the deduplication of [campaign.add_alias],
    which is not in [handlers.py]: an alias is added unless the list
    already has it. *)
Fixpoint add_aliases (aliases new : list string) : list string :=
  match new with
  | [] => aliases
  | a :: rest =>
      add_aliases (if bool_decide (a ∈ aliases) then aliases else aliases ++ [a]) rest
  end.

(** Modelled from the spec: [campaign.add_alias(aliases)], which is not
    in [handlers.py]; the stored aliases are a deduplicated list. *)
Definition add_alias (self : Campaign) (aliases : list string) : Campaign :=
  {| c_id := c_id self; c_name := c_name self; c_description := c_description self;
     c_aliases := add_aliases (c_aliases self) aliases;
     c_bucket_list := c_bucket_list self;
     c_tickets := c_tickets self; c_relationships := c_relationships self |}.

Definition with_campaigns (db : DB) (l : list Campaign) (next : nat) : DB :=
  {| db_campaigns := l; db_objects := db_objects db; db_next_oid := next |}.

Definition has_id (i : string) (c : Campaign) : bool :=
  bool_decide (c_id c = Some i).

(** [Campaign.objects(name=name).first()]: exact match on the name. *)
Definition campaign_by_name (name : string) (db : DB) : option Campaign :=
  List.find (fun c => String.eqb (c_name c) name) (db_campaigns db).

(** Modelled from the spec: [campaign.save(username)] of the document
    store: raises [ValidationError] when the schema rejects the
    document; otherwise a new document gets an id and is inserted, and
    a known one is replaced. *)
Definition campaign_save (self : Campaign) (username : string) (db : DB)
  : Outcome Campaign * DB :=
  match validate_campaign self with
  | Some e => (Raised (ValidationError e), db)
  | None =>
      match c_id self with
      | None =>
          let self' :=
            {| c_id := Some (new_object_id (db_next_oid db)); c_name := c_name self;
               c_description := c_description self; c_aliases := c_aliases self;
               c_bucket_list := c_bucket_list self; c_tickets := c_tickets self;
               c_relationships := c_relationships self |} in
          (Returned self', with_campaigns db (db_campaigns db ++ [self']) (S (db_next_oid db)))
      | Some i =>
          if existsb (has_id i) (db_campaigns db)
          then (Returned self,
                with_campaigns db
                  ((fun c => if has_id i c then self else c) <$> db_campaigns db)
                  (db_next_oid db))
          else (Returned self, with_campaigns db (db_campaigns db ++ [self]) (db_next_oid db))
      end
  end.

(** Modelled from the spec: [campaign.reload()], which reads the
    document back from the store. *)
Definition campaign_reload (self : Campaign) (db : DB) : Campaign :=
  match c_id self with
  | Some i => default self (List.find (has_id i) (db_campaigns db))
  | None => self
  end.

(** Modelled from the spec: [campaign.delete(username)], an
    unconditional hard delete. *)
Definition campaign_delete (self : Campaign) (username : string) (db : DB) : DB :=
  with_campaigns db
    (List.filter (fun c => negb (bool_decide (c_id c = c_id self))) (db_campaigns db))
    (db_next_oid db).

(** Modelled from the spec: [campaign.add_relationship(rel_item,
    rel_type, analyst)], which is not in [handlers.py]: a relationship
    in both directions, the Campaign holding the type it is given and
    the other object the inverse one. *)
Definition add_relationship (self : Campaign) (rel_item : TopLevel) (rel_type_ : string)
    (analyst : string) (db : DB) : Campaign * DB :=
  let mine := {| rel_type := tl_type rel_item; object_id := tl_id rel_item;
                 relationship := rel_type_ |} in
  let theirs := {| rel_type := "Campaign"; object_id := str_id (c_id self);
                   relationship := inverse rel_type_ |} in
  ({| c_id := c_id self; c_name := c_name self; c_description := c_description self;
      c_aliases := c_aliases self; c_bucket_list := c_bucket_list self;
      c_tickets := c_tickets self; c_relationships := c_relationships self ++ [mine] |},
   with_objects db
     (<[key rel_item := {| campaign := campaign (tl_doc rel_item);
                            relationships := relationships (tl_doc rel_item) ++ [theirs] |}]>
        (db_objects db))).

(** *** Campaign registry handlers *)

(** The "Adjust aliases" step of [add_campaign]. *)
Definition final_aliases (aliases : AliasArg) : list string :=
  match aliases with
  | AliasStr s => let alias_list := split comma s in strip <$> alias_list
  | AliasList l => strip <$> l
  | AliasOther => []
  end.

(** The lookup of the related object in [add_campaign].  The branch
    for a related object that cannot be resolved assigns into
    [retVal], a name that the function never binds: evaluating it
    raises [NameError]. *)
Definition add_campaign_related (related_id related_type : option string) (db : DB)
  : Outcome (option TopLevel) :=
  if truthy related_id && truthy related_type
  then match class_from_id (default "" related_type) (default "" related_id) db with
       | Some o => Returned (Some o)
       | None => Raised (NameError "retVal")
       end
  else Returned None.

(** The relationship step of [add_campaign]; its save is outside any
    [try]. *)
Definition add_campaign_link (related_obj : option TopLevel)
    (relationship_type : option string) (campaign : Campaign) (analyst : string) (db : DB)
  : Outcome Campaign * DB :=
  match related_obj with
  | Some o =>
      if truthy relationship_type then
        let relationship_type := inverse (default "" relationship_type) in
        let '(campaign, db) := add_relationship campaign o relationship_type analyst db in
        match campaign_save campaign analyst db with
        | (Raised e, db) => (Raised e, db)
        | (Returned campaign, db) => (Returned (campaign_reload campaign db), db)
        end
      else (Returned campaign, db)
  | None => (Returned campaign, db)
  end.

(** The closing [try] block of [add_campaign]. *)
Definition add_campaign_finish (campaign : Campaign) (analyst : string) (db : DB)
  : Outcome PyDict * DB :=
  match campaign_save campaign analyst db with
  | (Returned campaign, db) =>
      let campaign := campaign_reload campaign db in
      (Returned [("success", PyBool true);
                 ("message", PyStr "Campaign created successfully!");
                 ("id", PyStr (str_id (c_id campaign)))], db)
  | (Raised (ValidationError e), db) =>
      (Returned [("success", PyBool false);
                 ("message", PyStr ("Invalid value: " +:+ e))], db)
  | (Raised e, db) => (Raised e, db)
  end.

(** [add_campaign]. *)
Definition add_campaign (name description : string) (aliases : AliasArg) (analyst : string)
    (bucket_list ticket related_id related_type relationship_type : option string)
    (db : DB) : Outcome PyDict * DB :=
  match campaign_by_name name db with
  | Some campaign =>
      (Returned [("success", PyBool false);
                 ("message", PyList ["Campaign already exists."]);
                 ("id", PyStr (str_id (c_id campaign)))], db)
  | None =>
      let campaign := new_campaign name in
      let campaign := edit_description campaign description in
      let campaign :=
        if truthy bucket_list
        then add_bucket_list campaign (default "" bucket_list) analyst else campaign in
      let campaign :=
        if truthy ticket then add_ticket campaign (default "" ticket) analyst else campaign in
      let campaign := add_alias campaign (final_aliases aliases) in
      match add_campaign_related related_id related_type db with
      | Raised e => (Raised e, db)
      | Returned related_obj =>
          match campaign_save campaign analyst db with
          | (Raised e, db) => (Raised e, db)
          | (Returned campaign, db) =>
              match add_campaign_link related_obj relationship_type campaign analyst db with
              | (Raised e, db) => (Raised e, db)
              | (Returned campaign, db) => add_campaign_finish campaign analyst db
              end
          end
      end
  end.

(** [remove_campaign]. *)
Definition remove_campaign (name analyst : string) (db : DB) : Outcome PyDict * DB :=
  match campaign_by_name name db with
  | Some campaign =>
      (Returned [("success", PyBool true)], campaign_delete campaign analyst db)
  | None =>
      (Returned [("success", PyBool false); ("message", PyStr "Campaign not found.")], db)
  end.

End Registry.

Section Attribution.
Context `{Collaborators}.

(** *** Propagation to related objects *)

(** The object at the other end of a relationship, as loaded from the
    document [d] that the store holds for it. *)
Definition related_object (r : Relationship) (d : Document) : TopLevel :=
  {| tl_type := rel_type r; tl_id := object_id r; tl_doc := d |}.

(** One turn of the loop of [campaign_addto_related], for the
    relationship [r]: an unknown type tag and an id that does not
    resolve are skipped; otherwise the campaign is added to the related
    object, which is saved, a [ValidationError] of that save being
    passed over. *)
Definition addto_related_step (campaign : EmbeddedCampaign) (analyst : string)
    (db : DB) (r : Relationship) : DB :=
  if class_from_type (rel_type r) then
    match db_objects db !! (rel_type r, object_id r) with
    | None => db
    | Some d =>
        let robj := related_object r d in
        let '(robj, _) := obj_add_campaign robj campaign true in
        match save robj analyst db with
        | (Returned _, db') => db'
        | (Raised _, db') => db'
        end
    end
  else db.

(** [campaign_addto_related]: the loop over the relationships of the
    object, in list order. *)
Definition campaign_addto_related (crits_object : TopLevel) (campaign : EmbeddedCampaign)
    (analyst : string) (db : DB) : DB :=
  fold_left (addto_related_step campaign analyst)
    (relationships (tl_doc crits_object)) db.

(** *** Attribution handlers *)

(** The first lines of [campaign_add]: the object is the instance
    given, or else the one that type and id resolve to. *)
Definition campaign_add_target (ctype oid : option string) (obj : option TopLevel) (db : DB)
  : TopLevel + PyDict :=
  match obj with
  | Some o => inl o
  | None =>
      if truthy ctype && truthy oid then
        match class_from_id (default "" ctype) (default "" oid) db with
        | Some o => inl o
        | None =>
            inr [("success", PyBool false);
                 ("message", PyStr ("Cannot find " +:+ default "" ctype +:+ "."))]
        end
      else
        inr [("success", PyBool false);
             ("message",
              PyStr "Object type and ID, or object instance, must be provided.")]
  end.

(** [campaign_add]; [now] is the time at which the embedded campaign
    is built, the default of its date. *)
Definition campaign_add (campaign_name confidence description : string) (related : bool)
    (analyst : string) (ctype oid : option string) (obj : option TopLevel)
    (update : bool) (now : Z) (db : DB) : Outcome PyDict * DB :=
  match campaign_add_target ctype oid obj db with
  | inr failure => (Returned failure, db)
  | inl obj =>
      let campaign :=
        {| ec_name := campaign_name; ec_confidence := confidence;
           ec_description := description; ec_analyst := analyst; ec_date := now |} in
      let '(obj, result) := obj_add_campaign obj campaign update in
      if r_success result then
        let db := if related then campaign_addto_related obj campaign analyst db else db in
        match save obj analyst db with
        | (Returned _, db) =>
            let html := format_campaign obj campaign analyst in
            (Returned [("success", PyBool true); ("html", PyStr html);
                       ("message", PyStr (r_message result))], db)
        | (Raised (ValidationError e), db) =>
            (Returned [("success", PyBool false);
                       ("message", PyStr ("Invalid value: " +:+ e))], db)
        | (Raised e, db) => (Raised e, db)
        end
      else
        (Returned [("success", PyBool false); ("message", PyStr (r_message result))], db)
  end.

(** [campaign_edit]: the result of [edit_campaign] is not looked at. *)
Definition campaign_edit (ctype oid campaign_name confidence description : string)
    (date : Z) (related : bool) (analyst : string) (db : DB) : Outcome PyDict * DB :=
  match class_from_id ctype oid db with
  | None =>
      (Returned [("success", PyBool false);
                 ("message", PyStr ("Cannot find " +:+ ctype +:+ "."))], db)
  | Some crits_object =>
      let campaign :=
        {| ec_name := campaign_name; ec_confidence := confidence;
           ec_description := description; ec_analyst := analyst; ec_date := date |} in
      let '(crits_object, _) := obj_edit_campaign crits_object campaign in
      let db :=
        if related then campaign_addto_related crits_object campaign analyst db else db in
      match save crits_object analyst db with
      | (Returned _, db) =>
          let html := format_campaign crits_object campaign analyst in
          (Returned [("success", PyBool true); ("html", PyStr html)], db)
      | (Raised (ValidationError e), db) =>
          (Returned [("success", PyBool false);
                     ("message", PyStr ("Invalid value: " +:+ e))], db)
      | (Raised e, db) => (Raised e, db)
      end
  end.

(** [campaign_remove]: the result of [remove_campaign] is not looked at. *)
Definition campaign_remove (ctype oid campaign analyst : string) (db : DB)
  : Outcome PyDict * DB :=
  match class_from_id ctype oid db with
  | None =>
      (Returned [("success", PyBool false);
                 ("message", PyStr ("Cannot find " +:+ ctype +:+ "."))], db)
  | Some crits_object =>
      let '(crits_object, _) := obj_remove_campaign crits_object campaign in
      match save crits_object analyst db with
      | (Returned _, db) => (Returned [("success", PyBool true)], db)
      | (Raised (ValidationError e), db) =>
          (Returned [("success", PyBool false);
                     ("message", PyStr ("Invalid value: " +:+ e))], db)
      | (Raised e, db) => (Raised e, db)
      end
  end.

End Attribution.

(** ** A concrete store and concrete collaborators

    Used to run the handlers on examples: the schema accepts the
    confidences low, medium and high and requires a Campaign name; the
    embed step rejects a blank campaign name. *)

Definition sample_validate (o : TopLevel) : option string :=
  if forallb (fun c => bool_decide (ec_confidence c ∈ ["low"; "medium"; "high"]))
       (campaign (tl_doc o))
  then None
  else Some "confidence: Value must be one of ('low', 'medium', 'high')".

Definition sample_collaborators : Collaborators := {|
  class_from_type := fun t => bool_decide (t ∈ ["Indicator"; "Domain"; "Sample"]);
  validate := sample_validate;
  validate_campaign := fun c =>
    if String.eqb (c_name c) "" then Some "name: Field is required" else None;
  embed_check := fun c =>
    if String.eqb (strip (ec_name c)) "" then Some "Campaign is invalid" else None;
  assigned_message := "Campaign assigned successfully!";
  not_found_message := "Campaign not found.";
  format_campaign := fun o c analyst => ec_name c +:+ " (" +:+ ec_confidence c +:+ ")";
  inverse := fun r =>
    if String.eqb r "Contains" then "Contained Within"
    else if String.eqb r "Contained Within" then "Contains" else r;
  new_object_id := fun n => "oid-" +:+ pretty n
|}.

Definition indicator_x : Document :=
  {| campaign := [];
     relationships :=
       [ {| rel_type := "Domain"; object_id := "b"; relationship := "Related To" |};
         {| rel_type := "Domain"; object_id := "y"; relationship := "Related To" |} ] |}.

(** A domain that carries an attribution from before the schema
    restricted the confidence: saving it again fails validation. *)
Definition domain_b : Document :=
  {| campaign :=
       [ {| ec_name := "Old"; ec_confidence := "unknown"; ec_description := "";
            ec_analyst := "carol"; ec_date := 1 |} ];
     relationships := [] |}.

Definition domain_y : Document := {| campaign := []; relationships := [] |}.

Definition sample_s : Document :=
  {| campaign :=
       [ {| ec_name := "Foo"; ec_confidence := "low"; ec_description := "first sighting";
            ec_analyst := "bob"; ec_date := 5 |} ];
     relationships := [] |}.

Definition campaign_bar : Campaign :=
  {| c_id := Some "oid-0"; c_name := "Bar"; c_description := "an older campaign";
     c_aliases := ["Baz"]; c_bucket_list := []; c_tickets := []; c_relationships := [] |}.

Definition sample_db : DB :=
  {| db_campaigns := [campaign_bar];
     db_objects :=
       <[("Indicator", "x") := indicator_x]>
         (<[("Domain", "b") := domain_b]>
            (<[("Domain", "y") := domain_y]>
               (<[("Sample", "s") := sample_s]> ∅)));
     db_next_oid := 1 |}.

(** ** Monthly statistics ([get_campaign_stats])

    The Statistics collection holds documents of several shapes; the
    one named "campaign_monthly" has a list of results, each with the
    name of a campaign and a dict from month to count. *)

Record MonthlyResult := {
  mr_campaign : string;
  mr_value : gmap string Z
}.

Record Statistic := {
  stat_name : string;
  stat_results : list MonthlyResult
}.

(** One element of the list that [get_campaign_stats] returns: the
    dict with the keys 'label' and 'data', the data being the list of
    the pairs [[k, value[k]]]. *)
Record Series := {
  s_label : string;
  s_data : list (string * Z)
}.

(** The order of [str] values: that of their bytes, a proper prefix
    coming first. *)
Definition str_le (a b : string) : Prop := String.leb a b = true.

#[global] Instance str_le_dec : RelDecision str_le.
Proof. intros a b. unfold str_le. apply _. Defined.

#[global] Instance str_le_total : Total str_le.
Proof. intros a b. apply String.leb_total. Qed.

(** [sorted(keys)] for a list of strings. *)
Definition sorted (l : list string) : list string := merge_sort str_le l.

(** [stats.find_one({"name": "campaign_monthly"})]. *)
Definition find_campaign_monthly (stats : list Statistic) : option Statistic :=
  List.find (fun s => String.eqb (stat_name s) "campaign_monthly") stats.

(** The inner loop of [get_campaign_stats], over the sorted keys of
    [result["value"]]. *)
Fixpoint stats_data (value : gmap string Z) (keys : list string) : list (string * Z) :=
  match keys with
  | [] => []
  | k :: ks =>
      match value !! k with
      | Some v => (k, v) :: stats_data value ks
      | None => stats_data value ks
      end
  end.

(** The outer loop of [get_campaign_stats], over [stat["results"]]. *)
Fixpoint stats_loop (campaign : string) (results : list MonthlyResult) : list Series :=
  match results with
  | [] => []
  | result :: rest =>
      if String.eqb campaign (mr_campaign result) || String.eqb campaign "all"
      then {| s_label := mr_campaign result;
              s_data := stats_data (mr_value result)
                          (sorted ((map_to_list (mr_value result)).*1)) |}
           :: stats_loop campaign rest
      else stats_loop campaign rest
  end.

(** [get_campaign_stats], on the Statistics collection. *)
Definition get_campaign_stats (campaign : string) (stats : list Statistic) : list Series :=
  match find_campaign_monthly stats with
  | Some stat => stats_loop campaign (stat_results stat)
  | None => []
  end.

(** ** Aliases, status and TTPs of a Campaign

    The handlers below call methods of [Campaign] that are not in
    [handlers.py]; they are parameters, and nothing is assumed about
    them.  The methods that the handlers call inside their [try] block
    may raise. *)

(** [crits.campaigns.campaign.EmbeddedTTP], as [add_ttp] fills it. *)
Record EmbeddedTTP := {
  ttp_analyst : string;
  ttp_ttp : string
}.

Class CampaignMethods := {
  set_aliases : Campaign -> list string -> Campaign;
  activate : Campaign -> Campaign;
  deactivate : Campaign -> Campaign;
  campaign_add_ttp : Campaign -> EmbeddedTTP -> Outcome Campaign;
  campaign_edit_ttp : Campaign -> string -> string -> Outcome Campaign;
  campaign_remove_ttp : Campaign -> string -> Outcome Campaign
}.





Section CampaignEdits.
Context `{Collaborators} `{CampaignMethods}.

(** [Campaign.objects(id=cid).first()]. *)
Definition campaign_by_id (cid : string) (db : DB) : option Campaign :=
  List.find (has_id cid) (db_campaigns db).

(** The [try] block shared by [modify_campaign_aliases],
    [activate_campaign], [deactivate_campaign] and [edit_ttp]: save,
    and return success or the validation failure. *)
Definition save_and_report (campaign : Campaign) (analyst : string) (db : DB)
  : Outcome PyDict * DB :=
  match campaign_save campaign analyst db with
  | (Returned _, db) => (Returned [("success", PyBool true)], db)
  | (Raised (ValidationError e), db) =>
      (Returned [("success", PyBool false);
                 ("message", PyStr ("Invalid value: " +:+ e))], db)
  | (Raised e, db) => (Raised e, db)
  end.

(** [modify_campaign_aliases]. *)
Definition modify_campaign_aliases (name : string) (tags : list string) (analyst : string)
    (db : DB) : Outcome PyDict * DB :=
  match campaign_by_name name db with
  | Some campaign =>
      let campaign := set_aliases campaign tags in
      save_and_report campaign analyst db
  | None => (Returned [("success", PyBool false)], db)
  end.

(** [activate_campaign]. *)
Definition activate_campaign (name analyst : string) (db : DB) : Outcome PyDict * DB :=
  match campaign_by_name name db with
  | Some campaign =>
      let campaign := activate campaign in
      save_and_report campaign analyst db
  | None => (Returned [("success", PyBool false)], db)
  end.

(** [deactivate_campaign]. *)
Definition deactivate_campaign (name analyst : string) (db : DB) : Outcome PyDict * DB :=
  match campaign_by_name name db with
  | Some campaign =>
      let campaign := deactivate campaign in
      save_and_report campaign analyst db
  | None => (Returned [("success", PyBool false)], db)
  end.





End CampaignEdits.

(** ** The count columns of the Campaign listing

    The loop at the end of [generate_campaign_jtable] that makes the
    count columns clickable.  A field of the jtable is a dict; the
    loop reads its 'fieldname' and sets its 'display', and the other
    keys, which it does not touch, are left out.  [reverse] is the URL
    resolver of Django, a parameter. *)

Record JTableField := {
  fieldname : string;
  display : option string
}.

Definition count_ctypes : list string :=
  ["actor"; "backdoor"; "exploit"; "indicator"; "email";
   "domain"; "sample"; "event"; "ip"; "pcap"].

(** ['crits.%ss.views.%ss_listing' % (ctype, ctype)]. *)
Definition listing_view (ctype : string) : string :=
  "crits." +:+ ctype +:+ "s.views." +:+ ctype +:+ "s_listing".

Definition double_quote : string := String "034" EmptyString.
Definition newline : string := String "010" EmptyString.

(** The text that the loop stores as 'display', with the url and the
    type filled in. *)
Definition count_display (url ctype : string) : string :=
  " function (data) {" +:+ newline
  +:+ "                return '<a href=" +:+ double_quote +:+ url
  +:+ "?campaign='+encodeURIComponent(data.record.name)+'" +:+ double_quote
  +:+ ">'+data.record." +:+ ctype +:+ "_count+'</a>';" +:+ newline
  +:+ "            }" +:+ newline
  +:+ "            ".

(** [field['fieldname'].startswith("'" + ctype)]. *)
Definition names_count_of (ctype : string) (field : JTableField) : bool :=
  String.prefix ("'" +:+ ctype) (fieldname field).

Section CountLinks.
Variable reverse : string -> string.

(** The body of the inner loop, for one type and one field. *)
Definition link_count_field (ctype : string) (field : JTableField) : JTableField :=
  let url := reverse (listing_view ctype) in
  if names_count_of ctype field
  then {| fieldname := fieldname field; display := Some (count_display url ctype) |}
  else field.

(** The inner loop, for one type. *)
Definition link_count_fields (ctype : string) (fields : list JTableField)
  : list JTableField :=
  link_count_field ctype <$> fields.

(** The outer loop, over the types. *)
Definition make_counts_clickable (fields : list JTableField) : list JTableField :=
  fold_left (fun fields ctype => link_count_fields ctype fields) count_ctypes fields.

End CountLinks.

(** The number of commas of a string. *)
Fixpoint count_commas (s : string) : nat :=
  match s with
  | EmptyString => 0
  | String c s' => (if Ascii.eqb c comma then 1 else 0) + count_commas s'
  end.

Fixpoint has_comma (s : string) : bool :=
  match s with
  | EmptyString => false
  | String c s' => Ascii.eqb c comma || has_comma s'
  end.

(** *** More sample data *)

Definition sample_stats : list Statistic :=
  [ {| stat_name := "counts"; stat_results := [] |};
    {| stat_name := "campaign_monthly";
       stat_results :=
         [ {| mr_campaign := "Bar";
              mr_value := <["2013-05" := 3%Z]> (<["2012-11" := 7%Z]> (<["2013-01" := 1%Z]> ∅)) |};
           {| mr_campaign := "Foo"; mr_value := <["2013-02" := 4%Z]> ∅ |};
           {| mr_campaign := "Bar"; mr_value := ∅ |} ] |} ].

(** Sample Campaign methods: a change of status is recorded in the
    description, TTPs are kept with the bucket tags, and a blank TTP
    is rejected. *)
Definition sample_campaign_methods : CampaignMethods := {|
  set_aliases := fun c tags =>
    {| c_id := c_id c; c_name := c_name c; c_description := c_description c;
       c_aliases := tags; c_bucket_list := c_bucket_list c; c_tickets := c_tickets c;
       c_relationships := c_relationships c |};
  activate := fun c => edit_description c "active";
  deactivate := fun c => edit_description c "inactive";
  campaign_add_ttp := fun c t =>
    if String.eqb (strip (ttp_ttp t)) ""
    then Raised (ValidationError "ttp: Field is required")
    else Returned (add_bucket_list c (ttp_ttp t) (ttp_analyst t));
  campaign_edit_ttp := fun c old_ttp new_ttp =>
    if String.eqb (strip new_ttp) ""
    then Raised (ValidationError "ttp: Field is required")
    else Returned c;
  campaign_remove_ttp := fun c t => Returned c
|}.

(** * Properties *)

(** ** Strings *)

Lemma lstrip_leading (s : string) : leading_space (lstrip s) = false.
Proof.
  induction s as [|c s IH]; simpl; [done|].
  destruct (is_whitespace c) eqn:E; [done|]. simpl. by rewrite E.
Qed.

Lemma rstrip_trailing (s : string) : trailing_space (rstrip s) = false.
Proof.
  induction s as [|c s IH]; simpl; [done|].
  destruct (rstrip s) as [|c' r] eqn:E.
  - destruct (is_whitespace c) eqn:W; simpl; [done | by rewrite W].
  - exact IH.
Qed.

Lemma rstrip_leading (s : string) :
  leading_space s = false -> leading_space (rstrip s) = false.
Proof.
  destruct s as [|c s]; simpl; [done|]. intros Hc.
  destruct (rstrip s); [by rewrite Hc | done].
Qed.

Lemma strip_trimmed (s : string) :
  leading_space (strip s) = false /\ trailing_space (strip s) = false.
Proof.
  split; [apply rstrip_leading, lstrip_leading | apply rstrip_trailing].
Qed.

Example split_example : split comma "a, b ,c" = ["a"; " b "; "c"].
Proof. reflexivity. Qed.

Example split_empty : split comma "" = [""].
Proof. reflexivity. Qed.

Example split_trailing_comma : split comma "a,,b," = ["a"; ""; "b"; ""].
Proof. reflexivity. Qed.

Example strip_example : strip "  b c  " = "b c".
Proof. reflexivity. Qed.

Example strip_blank : strip "   " = "".
Proof. reflexivity. Qed.

(** ** Aliases *)

Lemma add_aliases_NoDup (new aliases : list string) :
  NoDup aliases -> NoDup (add_aliases aliases new).
Proof.
  revert aliases. induction new as [|a new IH]; intros aliases Hnd; simpl; [done|].
  apply IH. case_bool_decide; [done|].
  apply NoDup_app. split_and!; [done | | apply NoDup_singleton].
  intros x Hx Hin. apply list_elem_of_singleton in Hin. by subst.
Qed.

Lemma add_aliases_elem (new aliases : list string) (x : string) :
  x ∈ add_aliases aliases new <-> x ∈ aliases \/ x ∈ new.
Proof.
  revert aliases. induction new as [|a new IH]; intros aliases; simpl.
  - rewrite elem_of_nil. tauto.
  - rewrite IH, elem_of_cons. case_bool_decide as Ha.
    + split; [tauto|]. intros [?|[->|?]]; tauto.
    + rewrite elem_of_app, list_elem_of_singleton. tauto.
Qed.

(** ** The Campaign collection *)

Section RegistryFacts.
Context `{Collaborators}.

Lemma find_named_app (name : string) (X : list string) (l : list Campaign) (c : Campaign) :
  c_name c = name -> c_aliases c = X ->
  (forall c0, List.find (fun c => String.eqb (c_name c) name) l = Some c0 -> c_aliases c0 = X) ->
  exists c', List.find (fun c => String.eqb (c_name c) name) (l ++ [c]) = Some c'
             /\ c_aliases c' = X.
Proof.
  intros Hn Ha. induction l as [|a l IH]; simpl; intros Hl.
  - exists c. by rewrite Hn, String.eqb_refl.
  - destruct (String.eqb (c_name a) name) eqn:E; [exists a; eauto | by apply IH].
Qed.

Lemma find_named_replace (name i : string) (X : list string) (self : Campaign)
    (l : list Campaign) :
  c_name self = name -> c_aliases self = X ->
  (forall c0, List.find (fun c => String.eqb (c_name c) name) l = Some c0 -> c_aliases c0 = X) ->
  existsb (has_id i) l = true ->
  exists c', List.find (fun c => String.eqb (c_name c) name)
               ((fun c => if has_id i c then self else c) <$> l) = Some c'
             /\ c_aliases c' = X.
Proof.
  intros Hn Ha. induction l as [|a l IH]; simpl; intros Hl Hex; [done|].
  destruct (has_id i a) eqn:Hi.
  - exists self. by rewrite Hn, String.eqb_refl.
  - destruct (String.eqb (c_name a) name) eqn:E; [exists a; eauto | by apply IH].
Qed.

(** A successful save leaves a Campaign of that name, with those
    aliases, in the collection, and touches no other collection. *)
Lemma campaign_save_stored (self self' : Campaign) (u : string) (db db' : DB)
    (X : list string) :
  campaign_save self u db = (Returned self', db') ->
  c_aliases self = X ->
  (forall c0, campaign_by_name (c_name self) db = Some c0 -> c_aliases c0 = X) ->
  (exists c', campaign_by_name (c_name self) db' = Some c' /\ c_aliases c' = X)
  /\ c_name self' = c_name self /\ c_aliases self' = X
  /\ c_relationships self' = c_relationships self
  /\ is_Some (c_id self')
  /\ (is_Some (c_id self) -> self' = self)
  /\ db_objects db' = db_objects db.
Proof.
  unfold campaign_save, campaign_by_name. intros Hs Ha Hdb.
  destruct (validate_campaign self); [done|].
  destruct (c_id self) as [i|] eqn:Hid.
  - destruct (existsb (has_id i) (db_campaigns db)) eqn:Hex;
      injection Hs as <- <-; simpl; rewrite Hid;
      (split_and!; [| done | done | done | by eexists | done | done]).
    + by apply find_named_replace.
    + by apply find_named_app.
  - injection Hs as <- <-; simpl.
    split_and!; [| done | done | done | by eexists | by intros [? ?] | done].
    by apply find_named_app.
Qed.

Lemma campaign_save_returns (self : Campaign) (u : string) (db : DB) :
  validate_campaign self = None ->
  exists self' db', campaign_save self u db = (Returned self', db').
Proof.
  unfold campaign_save. intros ->.
  destruct (c_id self); [destruct (existsb _ _)|]; eauto.
Qed.

(** After a save of a Campaign that has an id, reading it back gives
    the Campaign that was saved. *)
Lemma find_id_replace (i : string) (self : Campaign) (l : list Campaign) :
  c_id self = Some i -> existsb (has_id i) l = true ->
  List.find (has_id i) ((fun c => if has_id i c then self else c) <$> l) = Some self.
Proof.
  intros Hid. assert (has_id i self = true) as Hs by (by apply bool_decide_eq_true).
  induction l as [|a l IH]; simpl; [done|].
  destruct (has_id i a) eqn:Hi; simpl; [by rewrite Hs | by rewrite Hi].
Qed.

Lemma find_id_app (i : string) (self : Campaign) (l : list Campaign) :
  c_id self = Some i -> existsb (has_id i) l = false ->
  List.find (has_id i) (l ++ [self]) = Some self.
Proof.
  intros Hid. assert (has_id i self = true) as Hs by (by apply bool_decide_eq_true).
  induction l as [|a l IH]; simpl; [by rewrite Hs|].
  destruct (has_id i a) eqn:Hi; simpl; [done | exact IH].
Qed.

Lemma campaign_save_reload (self self' : Campaign) (u : string) (db db' : DB) :
  campaign_save self u db = (Returned self', db') ->
  is_Some (c_id self) ->
  campaign_reload self' db' = self.
Proof.
  unfold campaign_save, campaign_reload. intros Hs [i Hid].
  destruct (validate_campaign self); [done|]. rewrite Hid in Hs.
  destruct (existsb (has_id i) (db_campaigns db)) eqn:Hex;
    injection Hs as <- <-; rewrite Hid; simpl.
  - by rewrite find_id_replace.
  - by rewrite find_id_app.
Qed.

End RegistryFacts.

(** ** Creating a Campaign *)

Section CreateFacts.
Context `{Collaborators}.

Lemma add_campaign_link_stored (ro : option TopLevel) (rel : option string)
    (c c' : Campaign) (analyst : string) (db db' : DB) (X : list string) :
  add_campaign_link ro rel c analyst db = (Returned c', db') ->
  c_aliases c = X -> is_Some (c_id c) ->
  (exists c0, campaign_by_name (c_name c) db = Some c0 /\ c_aliases c0 = X) ->
  (exists c0, campaign_by_name (c_name c) db' = Some c0 /\ c_aliases c0 = X)
  /\ c_name c' = c_name c /\ c_aliases c' = X /\ is_Some (c_id c').
Proof.
  unfold add_campaign_link. intros Hrun Ha Hi Hst.
  destruct ro as [o|]; [destruct (truthy rel)|]; try (injection Hrun as <- <-; done).
  unfold add_relationship in Hrun.
  destruct (campaign_save _ _ _) as [[c2|e] db2] eqn:S2; [|done].
  injection Hrun as <- <-.
  rewrite (campaign_save_reload _ _ _ _ _ S2) by done.
  eapply campaign_save_stored in S2 as (St2 & _); [| exact Ha |].
  - done.
  - destruct Hst as (c0 & Hc0 & Ha0). simpl. intros c3 Hc3.
    unfold campaign_by_name in *. simpl in Hc3. congruence.
Qed.

Lemma add_campaign_finish_stored (c : Campaign) (analyst : string) (db db' : DB)
    (d : PyDict) (X : list string) :
  add_campaign_finish c analyst db = (Returned d, db') ->
  succeeded d = true ->
  c_aliases c = X ->
  (exists c0, campaign_by_name (c_name c) db = Some c0 /\ c_aliases c0 = X) ->
  exists c0, campaign_by_name (c_name c) db' = Some c0 /\ c_aliases c0 = X.
Proof.
  unfold add_campaign_finish. intros Hrun Hsucc Ha Hst.
  destruct (campaign_save c analyst db) as [[c1|[?|?]] db1] eqn:S1; try done.
  - injection Hrun as _ <-.
    eapply campaign_save_stored in S1 as (St1 & _); [done | exact Ha |].
    destruct Hst as (c0 & Hc0 & Ha0). congruence.
  - injection Hrun as <- <-. done.
Qed.

(** A successful [add_campaign] leaves in the collection a Campaign of
    the given name whose aliases are the deduplicated normalized ones. *)
Lemma add_campaign_stored (name description : string) (aliases : AliasArg) (analyst : string)
    (bl tk rid rty rel : option string) (db db' : DB) (d : PyDict) :
  add_campaign name description aliases analyst bl tk rid rty rel db = (Returned d, db') ->
  succeeded d = true ->
  exists c, campaign_by_name name db' = Some c
            /\ c_aliases c = add_aliases [] (final_aliases aliases).
Proof.
  unfold add_campaign. intros Hrun Hsucc.
  destruct (campaign_by_name name db) eqn:Hfind.
  { injection Hrun as <- <-. done. }
  remember (add_alias _ _) as c0 eqn:Hc0 in Hrun.
  assert (c_name c0 = name /\ c_aliases c0 = add_aliases [] (final_aliases aliases))
    as (Hn & Ha).
  { subst c0. by destruct (truthy bl), (truthy tk). }
  clear Hc0.
  destruct (add_campaign_related rid rty db) as [ro|e]; [|done].
  destruct (campaign_save c0 analyst db) as [[c1|e] db1] eqn:S1; [|done].
  eapply campaign_save_stored in S1 as (St1 & N1 & A1 & R1 & I1 & _ & O1);
    [| exact Ha | by rewrite Hn, Hfind].
  destruct (add_campaign_link ro rel c1 analyst db1) as [[c2|e] db2] eqn:L; [|done].
  eapply add_campaign_link_stored in L as (St2 & N2 & A2 & I2);
    [| exact A1 | done | by rewrite N1].
  eapply add_campaign_finish_stored in Hrun; [| done | exact A2 | by rewrite N2].
  by rewrite N2, N1, Hn in Hrun.
Qed.

(** [add_campaign] succeeds for a new name when the schema accepts the
    Campaign and the related object, if one is named, resolves. *)
Lemma add_campaign_succeeds (name description : string) (aliases : AliasArg)
    (analyst : string) (bl tk rid rty rel : option string) (db : DB) :
  campaign_by_name name db = None ->
  (forall c, c_name c = name -> validate_campaign c = None) ->
  (truthy rid && truthy rty = true ->
   is_Some (class_from_id (default "" rty) (default "" rid) db)) ->
  exists d db',
    add_campaign name description aliases analyst bl tk rid rty rel db = (Returned d, db')
    /\ succeeded d = true.
Proof.
  unfold add_campaign. intros Hfind Hval Hrel. rewrite Hfind.
  remember (add_alias _ _) as c0 eqn:Hc0.
  assert (c_name c0 = name) as Hn.
  { subst c0. by destruct (truthy bl), (truthy tk). }
  clear Hc0.
  assert (exists ro, add_campaign_related rid rty db = Returned ro) as [ro Hro].
  { unfold add_campaign_related. destruct (truthy rid && truthy rty); [|by eexists].
    destruct Hrel as [o Ho]; [done | rewrite Ho; by eexists]. }
  rewrite Hro.
  destruct (campaign_save_returns c0 analyst db (Hval _ Hn)) as (c1 & db1 & S1).
  rewrite S1.
  eapply campaign_save_stored in S1 as (_ & N1 & _ & _ & I1 & _);
    [| reflexivity | by rewrite Hn, Hfind].
  assert (exists c2 db2, add_campaign_link ro rel c1 analyst db1 = (Returned c2, db2)
                         /\ c_name c2 = name) as (c2 & db2 & L & N2).
  { unfold add_campaign_link.
    destruct ro as [o|]; [destruct (truthy rel)|]; try (do 2 eexists; split; [done|congruence]).
    unfold add_relationship.
    match goal with |- context [campaign_save ?c ?u ?db0] =>
      destruct (campaign_save_returns c u db0) as (c3 & db3 & S3);
        [apply Hval; simpl; congruence|];
      rewrite S3; do 2 eexists; split; [done|];
      rewrite (campaign_save_reload _ _ _ _ _ S3) by done; simpl; congruence
    end. }
  rewrite L. unfold add_campaign_finish.
  destruct (campaign_save_returns c2 analyst db2 (Hval _ N2)) as (c3 & db3 & S3).
  rewrite S3.
  by do 2 eexists.
Qed.

End CreateFacts.

(** ** Claims about the Campaign registry *)

Lemma run_eq {A B : Type} (p : A * B) (a : A) : fst p = a -> p = (a, snd p).
Proof. destruct p; simpl; congruence. Qed.

(** C4. Campaign creation stores the same alias set for the string
    "a, b ,c" and for the list ["a","b","c"], namely a, b and c: the
    stored aliases are the pieces of the input (the comma-separated
    pieces of a string, the elements of a list), each trimmed of
    surrounding whitespace, without duplicates. *)
Theorem add_campaign_alias_set `{Collaborators} (name description : string)
    (aliases : AliasArg) (analyst : string) (bl tk rid rty rel : option string)
    (db db' : DB) (d : PyDict) :
  add_campaign name description aliases analyst bl tk rid rty rel db = (Returned d, db') ->
  succeeded d = true ->
  exists c, campaign_by_name name db' = Some c
    /\ NoDup (c_aliases c)
    /\ (forall s, aliases = AliasStr s ->
        forall a, a ∈ c_aliases c <-> exists p, a = strip p /\ p ∈ split comma s)
    /\ (forall l, aliases = AliasList l ->
        forall a, a ∈ c_aliases c <-> exists p, a = strip p /\ p ∈ l)
    /\ (forall a, a ∈ c_aliases c -> leading_space a = false /\ trailing_space a = false)
    /\ (aliases = AliasStr "a, b ,c" \/ aliases = AliasList ["a"; "b"; "c"] ->
        c_aliases c = ["a"; "b"; "c"]).
Proof.
  intros Hrun Hsucc.
  destruct (add_campaign_stored _ _ _ _ _ _ _ _ _ _ _ _ Hrun Hsucc) as (c & Hc & Ha).
  exists c. rewrite Ha. split_and!; [done | | | | |].
  - apply add_aliases_NoDup, NoDup_nil_2.
  - intros s -> a. rewrite add_aliases_elem, elem_of_nil. simpl.
    rewrite list_elem_of_fmap. tauto.
  - intros l -> a. rewrite add_aliases_elem, elem_of_nil. simpl.
    rewrite list_elem_of_fmap. tauto.
  - intros a. rewrite add_aliases_elem, elem_of_nil. intros [[]|Hin].
    assert (exists p, a = strip p) as [p ->]; [|apply strip_trimmed].
    destruct aliases as [s|l|]; simpl in Hin.
    + apply list_elem_of_fmap in Hin as (p & -> & _). by exists p.
    + apply list_elem_of_fmap in Hin as (p & -> & _). by exists p.
    + by apply elem_of_nil in Hin.
  - by intros [-> | ->].
Qed.

Lemma add_campaign_alias_set_witness :
  let run s := add_campaign (H := sample_collaborators) "Foo" "a new campaign" s "alice"
                 None None None None None sample_db in
  exists c1 c2,
    campaign_by_name "Foo" (snd (run (AliasStr "a, b ,c"))) = Some c1
    /\ campaign_by_name "Foo" (snd (run (AliasList ["a"; "b"; "c"]))) = Some c2
    /\ c_aliases c1 = ["a"; "b"; "c"] /\ c_aliases c2 = ["a"; "b"; "c"].
Proof.
  intros run.
  destruct (add_campaign_alias_set (H := sample_collaborators)
              "Foo" "a new campaign" (AliasStr "a, b ,c") "alice"
              None None None None None sample_db (snd (run (AliasStr "a, b ,c")))
              [("success", PyBool true);
               ("message", PyStr "Campaign created successfully!");
               ("id", PyStr "oid-1")])
    as (c1 & H1 & _ & _ & _ & _ & A1);
    [apply run_eq; vm_compute; reflexivity | reflexivity |].
  destruct (add_campaign_alias_set (H := sample_collaborators)
              "Foo" "a new campaign" (AliasList ["a"; "b"; "c"]) "alice"
              None None None None None sample_db (snd (run (AliasList ["a"; "b"; "c"])))
              [("success", PyBool true);
               ("message", PyStr "Campaign created successfully!");
               ("id", PyStr "oid-1")])
    as (c2 & H2 & _ & _ & _ & _ & A2);
    [apply run_eq; vm_compute; reflexivity | reflexivity |].
  exists c1, c2. split_and!; [exact H1 | exact H2 | apply A1; by left | apply A2; by right].
Defined.

(** C10. When the aliases argument is neither a string nor a list, the
    normalization yields the empty list: the Campaign is created
    without aliases and the call succeeds (for a new name, a document
    the schema accepts and, if a related object is named, one that
    resolves). *)
Theorem add_campaign_other_aliases `{Collaborators} (name description analyst : string)
    (bl tk rid rty rel : option string) (db : DB) :
  campaign_by_name name db = None ->
  (forall c, c_name c = name -> validate_campaign c = None) ->
  (truthy rid && truthy rty = true ->
   is_Some (class_from_id (default "" rty) (default "" rid) db)) ->
  final_aliases AliasOther = []
  /\ exists d db',
       add_campaign name description AliasOther analyst bl tk rid rty rel db
       = (Returned d, db')
       /\ succeeded d = true
       /\ exists c, campaign_by_name name db' = Some c /\ c_aliases c = [].
Proof.
  intros Hfind Hval Hrel. split; [done|].
  destruct (add_campaign_succeeds name description AliasOther analyst bl tk rid rty rel db
              Hfind Hval Hrel) as (d & db' & Hrun & Hsucc).
  exists d, db'. split_and!; [done | done |].
  exact (add_campaign_stored _ _ _ _ _ _ _ _ _ _ _ _ Hrun Hsucc).
Qed.

Lemma add_campaign_other_aliases_witness :
  exists d db',
    add_campaign (H := sample_collaborators) "Foo" "a new campaign" AliasOther "alice"
      None None None None None sample_db = (Returned d, db')
    /\ succeeded d = true
    /\ exists c, campaign_by_name "Foo" db' = Some c /\ c_aliases c = [].
Proof.
  apply (add_campaign_other_aliases (H := sample_collaborators)
           "Foo" "a new campaign" "alice" None None None None None sample_db).
  - reflexivity.
  - intros c Hc. simpl. rewrite Hc. reflexivity.
  - simpl. discriminate.
Defined.

(** C5. Creating a Campaign under a name that a Campaign already has
    returns the failure "Campaign already exists." with the id of the
    existing record, and the store is left exactly as it was. *)
Theorem add_campaign_existing_name `{Collaborators} (name description : string)
    (aliases : AliasArg) (analyst : string) (bl tk rid rty rel : option string)
    (db : DB) (existing : Campaign) :
  campaign_by_name name db = Some existing ->
  add_campaign name description aliases analyst bl tk rid rty rel db
  = (Returned [("success", PyBool false);
               ("message", PyList ["Campaign already exists."]);
               ("id", PyStr (str_id (c_id existing)))], db).
Proof. unfold add_campaign. by intros ->. Qed.

Lemma add_campaign_existing_name_witness :
  add_campaign (H := sample_collaborators) "Bar" "another description"
    (AliasStr "x,y") "alice" (Some "tag") None (Some "x") (Some "Indicator")
    (Some "Contains") sample_db
  = (Returned [("success", PyBool false);
               ("message", PyList ["Campaign already exists."]);
               ("id", PyStr "oid-0")], sample_db).
Proof.
  apply (add_campaign_existing_name (H := sample_collaborators) "Bar" "another description"
           (AliasStr "x,y") "alice" (Some "tag") None (Some "x") (Some "Indicator")
           (Some "Contains") sample_db campaign_bar).
  reflexivity.
Defined.

(** [add_campaign] with a related object that does not resolve. *)
Lemma add_campaign_related_unresolved `{Collaborators} (name description : string)
    (aliases : AliasArg) (analyst : string) (bl tk rid rty rel : option string) (db : DB) :
  campaign_by_name name db = None ->
  truthy rid && truthy rty = true ->
  class_from_id (default "" rty) (default "" rid) db = None ->
  add_campaign name description aliases analyst bl tk rid rty rel db
  = (Raised (NameError "retVal"), db).
Proof.
  unfold add_campaign, add_campaign_related. by intros -> -> ->.
Qed.

(** [add_campaign] with a document that the schema rejects: the first
    save is outside the [try] block. *)
Lemma add_campaign_invalid_raises `{Collaborators} (name description : string)
    (aliases : AliasArg) (analyst : string) (bl tk rel : option string) (db : DB)
    (e : string) :
  campaign_by_name name db = None ->
  (forall c, c_name c = name -> validate_campaign c = Some e) ->
  add_campaign name description aliases analyst bl tk None None rel db
  = (Raised (ValidationError e), db).
Proof.
  unfold add_campaign, add_campaign_related, campaign_save. intros -> Hval. simpl.
  rewrite Hval; [done|]. by destruct (truthy bl), (truthy tk).
Qed.

(** C3. Not every operation returns a structured result: creating a
    Campaign with a related object reference that does not resolve
    raises [NameError] (the failure dict is assigned into [retVal],
    which is never bound) instead of returning a failure. *)
Theorem add_campaign_unresolved_related_raises :
  add_campaign (H := sample_collaborators) "Foo" "a new campaign" (AliasStr "a, b ,c")
    "alice" None None (Some "nope") (Some "Indicator") (Some "Contains") sample_db
  = (Raised (NameError "retVal"), sample_db).
Proof.
  apply add_campaign_related_unresolved; vm_compute; reflexivity.
Qed.

(** ** Campaign lists *)

Lemma has_campaign_elem (n : string) (l : list EmbeddedCampaign) :
  has_campaign n l = true <-> n ∈ ec_name <$> l.
Proof.
  unfold has_campaign, same_name. induction l as [|c l IH]; simpl.
  - rewrite elem_of_nil. split; [discriminate | tauto].
  - rewrite orb_true_iff, IH, elem_of_cons, String.eqb_eq.
    split; (intros [?|?]; [left | right]); done.
Qed.

Lemma has_campaign_not_elem (n : string) (l : list EmbeddedCampaign) :
  has_campaign n l = false <-> n ∉ ec_name <$> l.
Proof.
  rewrite <- has_campaign_elem. by destruct (has_campaign n l).
Qed.

Lemma merge_campaign_names (item : EmbeddedCampaign) (l : list EmbeddedCampaign) :
  ec_name <$> merge_campaign item l = ec_name <$> l.
Proof.
  induction l as [|c l IH]; csimpl; [done|].
  destruct (same_name (ec_name item) c); csimpl; [done | by rewrite IH].
Qed.

Lemma replace_campaign_names (item : EmbeddedCampaign) (l : list EmbeddedCampaign) :
  ec_name <$> replace_campaign item l = ec_name <$> l.
Proof.
  induction l as [|c l IH]; csimpl; [done|].
  destruct (same_name (ec_name item) c); csimpl; [done | by rewrite IH].
Qed.

Lemma delete_campaign_names (n x : string) (l : list EmbeddedCampaign) :
  x ∈ ec_name <$> delete_campaign n l -> x ∈ ec_name <$> l.
Proof.
  induction l as [|c l IH]; csimpl; [done|].
  destruct (same_name n c); csimpl; rewrite !elem_of_cons; [tauto|].
  intros [?|?]; [by left | right; by apply IH].
Qed.

Lemma unique_names_merge (item : EmbeddedCampaign) (l : list EmbeddedCampaign) :
  unique_names l -> unique_names (merge_campaign item l).
Proof. unfold unique_names. by rewrite merge_campaign_names. Qed.

Lemma unique_names_replace (item : EmbeddedCampaign) (l : list EmbeddedCampaign) :
  unique_names l -> unique_names (replace_campaign item l).
Proof. unfold unique_names. by rewrite replace_campaign_names. Qed.

Lemma unique_names_delete (n : string) (l : list EmbeddedCampaign) :
  unique_names l -> unique_names (delete_campaign n l).
Proof.
  unfold unique_names. induction l as [|c l IH]; csimpl; [done|].
  rewrite NoDup_cons. intros [Hc Hl].
  destruct (same_name n c); csimpl; [done|].
  apply NoDup_cons. split; [|by apply IH].
  intros Hin. by apply Hc, delete_campaign_names with n.
Qed.

Lemma unique_names_append (item : EmbeddedCampaign) (l : list EmbeddedCampaign) :
  unique_names l -> has_campaign (ec_name item) l = false ->
  unique_names (l ++ [item]).
Proof.
  unfold unique_names. intros Hl Hn. apply has_campaign_not_elem in Hn.
  rewrite fmap_app. apply NoDup_app. split_and!; [done | | apply NoDup_singleton].
  intros x Hx Hin. apply list_elem_of_singleton in Hin. by subst.
Qed.

(** The entries of a given name in a list with unique names. *)
Lemma entries_named_none (n : string) (l : list EmbeddedCampaign) :
  has_campaign n l = false -> entries_named n l = [].
Proof.
  unfold has_campaign, entries_named. induction l as [|c l IH]; simpl; [done|].
  destruct (same_name n c); simpl; [done | exact IH].
Qed.

Lemma entries_named_unique (n : string) (l : list EmbeddedCampaign) :
  unique_names l -> has_campaign n l = true -> exists e, entries_named n l = [e].
Proof.
  unfold unique_names. induction l as [|c l IH]; simpl; [done|].
  rewrite NoDup_cons. intros [Hc Hl]. unfold entries_named. simpl.
  destruct (same_name n c) eqn:E; simpl.
  - intros _. exists c. f_equal. apply entries_named_none, has_campaign_not_elem.
    unfold same_name in E. apply String.eqb_eq in E. by rewrite <- E.
  - apply IH, Hl.
Qed.

Lemma entries_named_append (item : EmbeddedCampaign) (l : list EmbeddedCampaign) :
  has_campaign (ec_name item) l = false ->
  entries_named (ec_name item) (l ++ [item]) = [item].
Proof.
  intros Hn. pose proof (entries_named_none _ _ Hn) as Hnone.
  unfold entries_named in *. rewrite List.filter_app, Hnone.
  simpl. unfold same_name. by rewrite String.eqb_refl.
Qed.

Lemma entries_named_merge (item e : EmbeddedCampaign) (l : list EmbeddedCampaign) :
  entries_named (ec_name item) l = [e] ->
  entries_named (ec_name item) (merge_campaign item l)
  = [ {| ec_name := ec_name e; ec_confidence := ec_confidence item;
         ec_description := ec_description item; ec_analyst := ec_analyst e;
         ec_date := ec_date e |} ].
Proof.
  unfold entries_named. induction l as [|c l IH]; simpl; [done|].
  destruct (same_name (ec_name item) c) eqn:E; simpl.
  - intros [= -> Hl]. unfold same_name in *. simpl. rewrite E. by rewrite Hl.
  - rewrite E. exact IH.
Qed.

(** ** Methods of a top-level object *)

Section MethodFacts.
Context `{Collaborators}.

Lemma obj_add_campaign_frame (o : TopLevel) (item : EmbeddedCampaign) (u : bool) :
  key (fst (obj_add_campaign o item u)) = key o
  /\ relationships (tl_doc (fst (obj_add_campaign o item u))) = relationships (tl_doc o).
Proof.
  unfold obj_add_campaign.
  destruct (has_campaign _ _), u, (embed_check item); done.
Qed.

Lemma obj_add_campaign_unique (o : TopLevel) (item : EmbeddedCampaign) (u : bool) :
  unique_names (campaign (tl_doc o)) ->
  unique_names (campaign (tl_doc (fst (obj_add_campaign o item u)))).
Proof.
  unfold obj_add_campaign. intros Ho.
  destruct (has_campaign _ _) eqn:Hh, u, (embed_check item); simpl; try done;
    auto using unique_names_merge, unique_names_append.
Qed.

Lemma obj_add_campaign_has (o : TopLevel) (item : EmbeddedCampaign) (u : bool) :
  r_success (snd (obj_add_campaign o item u)) = true ->
  has_campaign (ec_name item) (campaign (tl_doc (fst (obj_add_campaign o item u)))) = true.
Proof.
  unfold obj_add_campaign.
  destruct (has_campaign _ _) eqn:Hh, u, (embed_check item); simpl; try done; intros _.
  - apply has_campaign_elem. rewrite merge_campaign_names. by apply has_campaign_elem.
  - apply has_campaign_elem. rewrite fmap_app, elem_of_app. right. by left.
  - apply has_campaign_elem. rewrite fmap_app, elem_of_app. right. by left.
Qed.

Lemma obj_add_campaign_embedded (o : TopLevel) (item : EmbeddedCampaign) (u : bool) :
  embed_check item = None -> r_success (snd (obj_add_campaign o item u)) = true.
Proof.
  unfold obj_add_campaign. intros ->. by destruct (has_campaign _ _), u.
Qed.

Lemma obj_edit_campaign_frame (o : TopLevel) (item : EmbeddedCampaign) :
  key (fst (obj_edit_campaign o item)) = key o
  /\ (unique_names (campaign (tl_doc o)) ->
      unique_names (campaign (tl_doc (fst (obj_edit_campaign o item))))).
Proof.
  unfold obj_edit_campaign.
  destruct (has_campaign _ _); simpl; auto using unique_names_replace.
Qed.

Lemma obj_remove_campaign_frame (o : TopLevel) (n : string) :
  key (fst (obj_remove_campaign o n)) = key o
  /\ (unique_names (campaign (tl_doc o)) ->
      unique_names (campaign (tl_doc (fst (obj_remove_campaign o n))))).
Proof.
  unfold obj_remove_campaign.
  destruct (has_campaign _ _); simpl; auto using unique_names_delete.
Qed.

(** *** Saving and loading *)

Lemma save_accepted (o : TopLevel) (u : string) (db : DB) :
  validate o = None ->
  save o u db = (Returned tt, with_objects db (<[key o := tl_doc o]> (db_objects db))).
Proof. unfold save. by intros ->. Qed.

Lemma save_rejected (o : TopLevel) (u : string) (db : DB) (e : string) :
  validate o = Some e -> save o u db = (Raised (ValidationError e), db).
Proof. unfold save. by intros ->. Qed.

Lemma db_unique_insert (db : DB) (k : string * string) (d : Document) :
  db_unique_names db -> unique_names (campaign d) ->
  db_unique_names (with_objects db (<[k := d]> (db_objects db))).
Proof.
  intros Hdb Hd k' d'. simpl. rewrite lookup_insert.
  case_decide; [by intros [= <-] | apply Hdb].
Qed.

Lemma save_unique (o : TopLevel) (u : string) (db : DB) :
  db_unique_names db -> unique_names (campaign (tl_doc o)) ->
  db_unique_names (snd (save o u db)).
Proof.
  unfold save. intros Hdb Ho.
  destruct (validate o); simpl; [done | by apply db_unique_insert].
Qed.

Lemma class_from_id_loaded (t i : string) (db : DB) (o : TopLevel) :
  class_from_id t i db = Some o ->
  class_from_type t = true /\ key o = (t, i)
  /\ db_objects db !! (t, i) = Some (tl_doc o).
Proof.
  unfold class_from_id.
  destruct (class_from_type t); [|done].
  destruct (db_objects db !! (t, i)); [|done]. by intros [= <-].
Qed.

Lemma class_from_id_unique (t i : string) (db : DB) (o : TopLevel) :
  db_unique_names db -> class_from_id t i db = Some o ->
  unique_names (campaign (tl_doc o)).
Proof.
  intros Hdb Ho. apply class_from_id_loaded in Ho as (_ & _ & Ho). by eapply Hdb.
Qed.

(** *** The propagation loop *)

Lemma addto_related_step_unique (item : EmbeddedCampaign) (a : string) (db : DB)
    (r : Relationship) :
  db_unique_names db -> db_unique_names (addto_related_step item a db r).
Proof.
  unfold addto_related_step. intros Hdb.
  destruct (class_from_type (rel_type r)); [|done].
  destruct (db_objects db !! (rel_type r, object_id r)) as [d|] eqn:Hd; [|done].
  set (robj := related_object r d).
  pose proof (obj_add_campaign_unique robj item true (Hdb _ _ Hd)) as Hu.
  destruct (obj_add_campaign robj item true) as [robj' res]. simpl in Hu.
  pose proof (save_unique robj' a db Hdb Hu) as Hs.
  by destruct (save robj' a db) as [[[]|e] db1].
Qed.

Lemma campaign_addto_related_unique (o : TopLevel) (item : EmbeddedCampaign) (a : string)
    (db : DB) :
  db_unique_names db -> db_unique_names (campaign_addto_related o item a db).
Proof.
  unfold campaign_addto_related. revert db.
  induction (relationships (tl_doc o)) as [|r rs IH]; simpl; intros db Hdb; [done|].
  by apply IH, addto_related_step_unique.
Qed.



End MethodFacts.

(** ** The attribution handlers *)

Section HandlerFacts.
Context `{Collaborators}.

(** What [campaign_add] does once its target is resolved. *)
Lemma campaign_add_resolved (n c d : string) (rel : bool) (a : string)
    (ctype oid : option string) (obj : option TopLevel) (u : bool) (now : Z) (db : DB)
    (o : TopLevel) :
  campaign_add_target ctype oid obj db = inl o ->
  let item := {| ec_name := n; ec_confidence := c; ec_description := d;
                 ec_analyst := a; ec_date := now |} in
  let o' := fst (obj_add_campaign o item u) in
  let res := snd (obj_add_campaign o item u) in
  let dbw := if rel then campaign_addto_related o' item a db else db in
  campaign_add n c d rel a ctype oid obj u now db
  = if r_success res then
      match validate o' with
      | None =>
          (Returned [("success", PyBool true); ("html", PyStr (format_campaign o' item a));
                     ("message", PyStr (r_message res))],
           with_objects dbw (<[key o := tl_doc o']> (db_objects dbw)))
      | Some e =>
          (Returned [("success", PyBool false);
                     ("message", PyStr ("Invalid value: " +:+ e))], dbw)
      end
    else (Returned [("success", PyBool false); ("message", PyStr (r_message res))], db).
Proof.
  intros Ht item o' res dbw. unfold campaign_add. rewrite Ht. fold item.
  destruct (obj_add_campaign_frame o item u) as [Hkey _].
  subst o' res dbw. destruct (obj_add_campaign o item u) as [o' res]. simpl in *.
  destruct (r_success res); [|done].
  unfold save. destruct (validate o'); [done|]. by rewrite Hkey.
Qed.

(** The target of [campaign_add], when none is given as an instance,
    is what the store holds under the type and id. *)
Lemma campaign_add_target_loaded (ctype oid : option string) (db : DB) (o : TopLevel) :
  campaign_add_target ctype oid None db = inl o ->
  exists t i, ctype = Some t /\ oid = Some i /\ class_from_id t i db = Some o.
Proof.
  unfold campaign_add_target.
  destruct ctype as [t|], oid as [i|]; simpl; try done;
    try (destruct (negb _); done).
  destruct (negb _ && negb _); [|done].
  destruct (class_from_id t i db) eqn:Ho; [|done]. intros [= <-]. eauto.
Qed.

Lemma with_objects_id (db : DB) (k : string * string) (d : Document) :
  db_objects db !! k = Some d ->
  with_objects db (<[k := d]> (db_objects db)) = db.
Proof. intros Hk. rewrite insert_id by done. by destruct db. Qed.

(** [campaign_edit] on a resolved target: the result does not depend
    on what [edit_campaign] reported. *)
Lemma campaign_edit_resolved (t i n c d : string) (date : Z) (rel : bool) (a : string)
    (db : DB) (o : TopLevel) :
  class_from_id t i db = Some o ->
  let item := {| ec_name := n; ec_confidence := c; ec_description := d;
                 ec_analyst := a; ec_date := date |} in
  let o' := fst (obj_edit_campaign o item) in
  fst (campaign_edit t i n c d date rel a db)
  = match validate o' with
    | None => Returned [("success", PyBool true);
                        ("html", PyStr (format_campaign o' item a))]
    | Some e => Returned [("success", PyBool false);
                          ("message", PyStr ("Invalid value: " +:+ e))]
    end.
Proof.
  intros Ho item o'. unfold campaign_edit. rewrite Ho. fold item.
  subst o'. destruct (obj_edit_campaign o item) as [o' res]. simpl.
  unfold save. by destruct (validate o').
Qed.

Lemma campaign_remove_resolved (t i n a : string) (db : DB) (o : TopLevel) :
  class_from_id t i db = Some o ->
  let o' := fst (obj_remove_campaign o n) in
  campaign_remove t i n a db
  = match validate o' with
    | None => (Returned [("success", PyBool true)],
               with_objects db (<[key o := tl_doc o']> (db_objects db)))
    | Some e => (Returned [("success", PyBool false);
                           ("message", PyStr ("Invalid value: " +:+ e))], db)
    end.
Proof.
  intros Ho o'. unfold campaign_remove. rewrite Ho.
  destruct (obj_remove_campaign_frame o n) as [Hkey _].
  subst o'. destruct (obj_remove_campaign o n) as [o' res]. simpl in *.
  unfold save. destruct (validate o'); [done|]. by rewrite Hkey.
Qed.

(** Editing or removing an attribution that the target does not hold
    leaves the target as it is, and the handler reports success. *)
Lemma campaign_edit_missing_entry (t i n c d : string) (date : Z) (rel : bool) (a : string)
    (db : DB) (o : TopLevel) :
  class_from_id t i db = Some o ->
  has_campaign n (campaign (tl_doc o)) = false ->
  validate o = None ->
  fst (campaign_edit t i n c d date rel a db)
  = Returned [("success", PyBool true);
              ("html",
               PyStr (format_campaign o
                        {| ec_name := n; ec_confidence := c; ec_description := d;
                           ec_analyst := a; ec_date := date |} a))].
Proof.
  intros Ho Hn Hv. rewrite (campaign_edit_resolved _ _ _ _ _ _ _ _ _ _ Ho).
  unfold obj_edit_campaign. simpl. rewrite Hn. simpl. by rewrite Hv.
Qed.

Lemma campaign_remove_missing_entry (t i n a : string) (db : DB) (o : TopLevel) :
  class_from_id t i db = Some o ->
  has_campaign n (campaign (tl_doc o)) = false ->
  validate o = None ->
  campaign_remove t i n a db = (Returned [("success", PyBool true)], db).
Proof.
  intros Ho Hn Hv. rewrite (campaign_remove_resolved _ _ _ _ _ _ Ho).
  unfold obj_remove_campaign. rewrite Hn. simpl. rewrite Hv.
  apply class_from_id_loaded in Ho as (_ & -> & Ho). by rewrite with_objects_id.
Qed.

End HandlerFacts.

(** ** Claims about single attribution calls *)

(** C9. Without an object instance and with the type tag or the object
    id missing, [campaign_add] returns the failure 'Object type and ID,
    or object instance, must be provided.' whatever the store holds,
    and the store is left as it was. *)
Theorem campaign_add_requires_target `{Collaborators} (n c d : string) (rel : bool)
    (a : string) (ctype oid : option string) (u : bool) (now : Z) (db : DB) :
  truthy ctype && truthy oid = false ->
  campaign_add n c d rel a ctype oid None u now db
  = (Returned [("success", PyBool false);
               ("message",
                PyStr "Object type and ID, or object instance, must be provided.")],
     db).
Proof. unfold campaign_add, campaign_add_target. by intros ->. Qed.

Lemma campaign_add_requires_target_witness :
  campaign_add (H := sample_collaborators) "Foo" "low" "seen in the wild" true "alice"
    None (Some "x") None true 10 sample_db
  = (Returned [("success", PyBool false);
               ("message",
                PyStr "Object type and ID, or object instance, must be provided.")],
     sample_db).
Proof.
  apply (campaign_add_requires_target (H := sample_collaborators)
           "Foo" "low" "seen in the wild" true "alice" None (Some "x") true 10 sample_db).
  reflexivity.
Defined.

(** C8, as stated, fails: Domain b holds an attribution of "Old" whose
    confidence the schema no longer accepts; attributing "Old" again
    with [update=False] changes nothing on it, the save of the
    unchanged target is rejected, and the call reports a failure. *)
Lemma campaign_add_no_update_counterexample :
  class_from_id (H := sample_collaborators) "Domain" "b" sample_db
  = Some {| tl_type := "Domain"; tl_id := "b"; tl_doc := domain_b |}
  /\ has_campaign "Old" (campaign domain_b) = true
  /\ campaign_add (H := sample_collaborators) "Old" "low" "" false "alice"
       (Some "Domain") (Some "b") None false 20 sample_db
     = (Returned [("success", PyBool false);
                  ("message",
                   PyStr "Invalid value: confidence: Value must be one of ('low', 'medium', 'high')")],
        sample_db).
Proof.
  split_and!; [vm_compute; reflexivity | reflexivity |].
  apply injective_projections; [vm_compute; reflexivity|]. simpl.
  rewrite (campaign_add_resolved (H := sample_collaborators) "Old" "low" "" false "alice"
             (Some "Domain") (Some "b") None false 20 sample_db
             {| tl_type := "Domain"; tl_id := "b"; tl_doc := domain_b |} eq_refl).
  reflexivity.
Qed.



(** C6, as stated, fails: Indicator x exists and holds no attribution
    of "Foo", and editing that attribution on it succeeds. *)
Lemma campaign_edit_entry_not_found_counterexample :
  class_from_id (H := sample_collaborators) "Indicator" "x" sample_db
  = Some {| tl_type := "Indicator"; tl_id := "x"; tl_doc := indicator_x |}
  /\ has_campaign "Foo" (campaign indicator_x) = false
  /\ fst (campaign_edit (H := sample_collaborators) "Indicator" "x" "Foo" "high"
            "second opinion" 20 false "alice" sample_db)
     = Returned [("success", PyBool true); ("html", PyStr "Foo (high)")].
Proof. split_and!; vm_compute; reflexivity. Qed.

(** C6 (amended). Editing an attribution fails with 'Cannot find
    <type>.' when the target does not resolve, and the store is left as
    it was.  When the target exists and holds no attribution of the
    campaign name, the result of [edit_campaign] is not looked at: the
    target is saved as it was and, the schema accepting it, the call
    reports success with the rendering of the attribution.  The two
    outcomes differ in the success flag. *)
Theorem campaign_edit_outcomes `{Collaborators} (t i n c d : string) (date : Z)
    (rel : bool) (a : string) (db : DB) :
  let run := campaign_edit t i n c d date rel a db in
  let item := {| ec_name := n; ec_confidence := c; ec_description := d;
                 ec_analyst := a; ec_date := date |} in
  (class_from_id t i db = None ->
   run = (Returned [("success", PyBool false);
                    ("message", PyStr ("Cannot find " +:+ t +:+ "."))], db)
   /\ call_succeeded (fst run) = false)
  /\ (forall o,
        class_from_id t i db = Some o ->
        has_campaign n (campaign (tl_doc o)) = false ->
        validate o = None ->
        fst run = Returned [("success", PyBool true);
                            ("html", PyStr (format_campaign o item a))]
        /\ call_succeeded (fst run) = true
        /\ db_objects (snd run) !! (t, i) = Some (tl_doc o)).
Proof.
  intros run item. split.
  - intros Ho. subst run. unfold campaign_edit. by rewrite Ho.
  - intros o Ho Hn Hv.
    pose proof (campaign_edit_missing_entry t i n c d date rel a db o Ho Hn Hv) as Hres.
    fold run item in Hres. rewrite Hres. split_and!; [done | done |].
    subst run. unfold campaign_edit. rewrite Ho.
    unfold obj_edit_campaign. simpl. rewrite Hn.
    unfold save. rewrite Hv. simpl.
    apply class_from_id_loaded in Ho as (_ & -> & _). apply lookup_insert_eq.
Qed.

Lemma campaign_edit_outcomes_witness :
  let edit i := campaign_edit (H := sample_collaborators) "Indicator" i "Foo" "high"
                  "second opinion" 20 true "alice" sample_db in
  call_succeeded (fst (edit "nope")) = false
  /\ snd (edit "nope") = sample_db
  /\ call_succeeded (fst (edit "x")) = true
  /\ db_objects (snd (edit "x")) !! ("Indicator", "x") = Some indicator_x.
Proof.
  intros edit.
  destruct (campaign_edit_outcomes (H := sample_collaborators) "Indicator" "nope" "Foo"
              "high" "second opinion" 20 true "alice" sample_db) as [Hnone _].
  destruct (campaign_edit_outcomes (H := sample_collaborators) "Indicator" "x" "Foo"
              "high" "second opinion" 20 true "alice" sample_db) as [_ Hsome].
  destruct Hnone as [Hrun Hfail]; [reflexivity|].
  destruct (Hsome {| tl_type := "Indicator"; tl_id := "x"; tl_doc := indicator_x |})
    as (_ & Hok & Hdoc); [reflexivity | reflexivity | reflexivity |].
  split_and!; [exact Hfail | | exact Hok | exact Hdoc].
  unfold edit. by rewrite Hrun.
Defined.

(** C7, as stated, fails: Indicator x exists and holds no attribution
    of "Foo", and removing that attribution from it succeeds and
    leaves the store as it was. *)
Lemma campaign_remove_entry_not_found_counterexample :
  class_from_id (H := sample_collaborators) "Indicator" "x" sample_db
  = Some {| tl_type := "Indicator"; tl_id := "x"; tl_doc := indicator_x |}
  /\ has_campaign "Foo" (campaign indicator_x) = false
  /\ campaign_remove (H := sample_collaborators) "Indicator" "x" "Foo" "alice" sample_db
     = (Returned [("success", PyBool true)], sample_db).
Proof.
  split_and!; [vm_compute; reflexivity | reflexivity |].
  apply (campaign_remove_missing_entry (H := sample_collaborators) "Indicator" "x" "Foo"
           "alice" sample_db
           {| tl_type := "Indicator"; tl_id := "x"; tl_doc := indicator_x |});
    reflexivity.
Qed.

(** C7 (amended). Removing a campaign attribution fails with 'Cannot
    find <type>.' when the target does not resolve, and the store is
    left as it was.  When the target exists and holds no attribution
    of the campaign name, the result of [remove_campaign] is not
    looked at: the target is saved as it was and, the schema accepting
    it, the call reports success and the store is unchanged, so that
    the removal can be repeated with the same outcome. *)
Theorem campaign_remove_outcomes `{Collaborators} (t i n a : string) (db : DB) :
  (class_from_id t i db = None ->
   campaign_remove t i n a db
   = (Returned [("success", PyBool false);
                ("message", PyStr ("Cannot find " +:+ t +:+ "."))], db))
  /\ (forall o,
        class_from_id t i db = Some o ->
        has_campaign n (campaign (tl_doc o)) = false ->
        validate o = None ->
        campaign_remove t i n a db = (Returned [("success", PyBool true)], db)
        /\ campaign_remove t i n a (snd (campaign_remove t i n a db))
           = (Returned [("success", PyBool true)], db)).
Proof.
  split.
  - intros Ho. unfold campaign_remove. by rewrite Ho.
  - intros o Ho Hn Hv.
    rewrite (campaign_remove_missing_entry t i n a db o Ho Hn Hv). simpl.
    split; [done|]. by apply campaign_remove_missing_entry with o.
Qed.

Lemma campaign_remove_outcomes_witness :
  let remove i := campaign_remove (H := sample_collaborators) "Indicator" i "Foo" "alice"
                    sample_db in
  remove "nope" = (Returned [("success", PyBool false);
                             ("message", PyStr "Cannot find Indicator.")], sample_db)
  /\ remove "x" = (Returned [("success", PyBool true)], sample_db).
Proof.
  intros remove.
  destruct (campaign_remove_outcomes (H := sample_collaborators) "Indicator" "nope" "Foo"
              "alice" sample_db) as [Hnone _].
  destruct (campaign_remove_outcomes (H := sample_collaborators) "Indicator" "x" "Foo"
              "alice" sample_db) as [_ Hsome].
  destruct (Hsome {| tl_type := "Indicator"; tl_id := "x"; tl_doc := indicator_x |})
    as [Hok _]; [reflexivity | reflexivity | reflexivity |].
  split; [apply Hnone; reflexivity | exact Hok].
Defined.

(** ** Propagation with a failing save *)

Section PropagationFacts.
Context `{Collaborators}.

Lemma addto_related_step_rejected (item : EmbeddedCampaign) (a : string) (db : DB)
    (r : Relationship) (d : Document) (e : string) :
  class_from_type (rel_type r) = true ->
  db_objects db !! (rel_type r, object_id r) = Some d ->
  validate (fst (obj_add_campaign (related_object r d) item true)) = Some e ->
  addto_related_step item a db r = db.
Proof.
  unfold addto_related_step. intros -> -> Hv.
  destruct (obj_add_campaign (related_object r d) item true) as [robj res].
  simpl in Hv. unfold save. by rewrite Hv.
Qed.

Lemma addto_related_step_saved (item : EmbeddedCampaign) (a : string) (db : DB)
    (r : Relationship) (d : Document) :
  class_from_type (rel_type r) = true ->
  db_objects db !! (rel_type r, object_id r) = Some d ->
  validate (fst (obj_add_campaign (related_object r d) item true)) = None ->
  addto_related_step item a db r
  = with_objects db
      (<[(rel_type r, object_id r) :=
           tl_doc (fst (obj_add_campaign (related_object r d) item true))]>
         (db_objects db)).
Proof.
  unfold addto_related_step. intros -> -> Hv.
  destruct (obj_add_campaign_frame (related_object r d) item true) as [Hkey _].
  destruct (obj_add_campaign (related_object r d) item true) as [robj res].
  simpl in *. unfold save. rewrite Hv. by rewrite Hkey.
Qed.

(** The response of [campaign_add] is the same with and without
    propagation. *)
Lemma campaign_add_response_related (n c d : string) (a : string)
    (ctype oid : option string) (obj : option TopLevel) (u : bool) (now : Z) (db : DB) :
  fst (campaign_add n c d true a ctype oid obj u now db)
  = fst (campaign_add n c d false a ctype oid obj u now db).
Proof.
  destruct (campaign_add_target ctype oid obj db) as [o|p] eqn:Ht.
  - rewrite !(campaign_add_resolved _ _ _ _ _ _ _ _ _ _ _ _ Ht).
    destruct (r_success _); [|done]. by destruct (validate _).
  - unfold campaign_add. by rewrite Ht.
Qed.

End PropagationFacts.

(** C2. With propagation, a validation failure while saving related
    object B is passed over: the next related object C is still given
    the attribution and saved, B stays as it was, what was written
    stays written, and the response of the call is the one the same
    call gives without propagation: it depends on the resolution of A,
    on the embed step on A and on the save of A only. *)
Theorem propagation_failure_swallowed `{Collaborators} :
  (forall (n c d a : string) (ctype oid : option string) (obj : option TopLevel)
          (u : bool) (now : Z) (db : DB),
      fst (campaign_add n c d true a ctype oid obj u now db)
      = fst (campaign_add n c d false a ctype oid obj u now db))
  /\
  (forall (n c d a : string) (ctype oid : option string) (obj : option TopLevel)
          (u : bool) (now : Z) (db : DB) (A : TopLevel) (rb rc : Relationship)
          (B C : Document) (eb : string),
      let item := {| ec_name := n; ec_confidence := c; ec_description := d;
                     ec_analyst := a; ec_date := now |} in
      let A' := fst (obj_add_campaign A item u) in
      let B' := fst (obj_add_campaign (related_object rb B) item true) in
      let C' := fst (obj_add_campaign (related_object rc C) item true) in
      let run := campaign_add n c d true a ctype oid obj u now db in
      campaign_add_target ctype oid obj db = inl A ->
      embed_check item = None ->
      relationships (tl_doc A) = [rb; rc] ->
      class_from_type (rel_type rb) = true ->
      class_from_type (rel_type rc) = true ->
      db_objects db !! (rel_type rb, object_id rb) = Some B ->
      db_objects db !! (rel_type rc, object_id rc) = Some C ->
      key A <> (rel_type rb, object_id rb) ->
      key A <> (rel_type rc, object_id rc) ->
      validate B' = Some eb ->
      validate C' = None ->
      db_objects (snd run) !! (rel_type rc, object_id rc) = Some (tl_doc C')
      /\ has_campaign n (campaign (tl_doc C')) = true
      /\ db_objects (snd run) !! (rel_type rb, object_id rb) = Some B
      /\ (validate A' = None ->
          call_succeeded (fst run) = true
          /\ db_objects (snd run) !! key A = Some (tl_doc A'))
      /\ (forall e, validate A' = Some e ->
          fst run = Returned [("success", PyBool false);
                              ("message", PyStr ("Invalid value: " +:+ e))])).
Proof.
  split; [apply campaign_add_response_related|].
  intros n c d a ctype oid obj u now db A rb rc B C eb item A' B' C' run
         Ht He Hrels Hcb Hcc HB HC HAB HAC HvB HvC.
  assert (rel_type rb <> rel_type rc \/ object_id rb <> object_id rc) as Hbc.
  { destruct (decide (rel_type rb = rel_type rc)) as [Et|]; [|by left].
    destruct (decide (object_id rb = object_id rc)) as [Ei|]; [|by right].
    exfalso. assert (related_object rb B = related_object rc C) as Heq.
    { unfold related_object. rewrite Et, Ei in *. congruence. }
    subst B' C'. rewrite Heq in HvB. congruence. }
  assert ((rel_type rb, object_id rb) <> (rel_type rc, object_id rc)) as Hne.
  { intros [= ? ?]. destruct Hbc; done. }
  assert (campaign_addto_related A' item a db
          = with_objects db (<[(rel_type rc, object_id rc) := tl_doc C']> (db_objects db)))
    as Hwalk.
  { unfold campaign_addto_related. subst A'.
    rewrite (proj2 (obj_add_campaign_frame A item u)), Hrels. simpl.
    rewrite (addto_related_step_rejected item a db rb B eb Hcb HB HvB).
    by apply addto_related_step_saved. }
  split_and!.
  - subst run. rewrite (campaign_add_resolved _ _ _ _ _ _ _ _ _ _ _ _ Ht).
    fold item A'. rewrite (obj_add_campaign_embedded A item u He), Hwalk.
    destruct (validate A'); simpl.
    + apply lookup_insert_eq.
    + rewrite lookup_insert_ne by done. apply lookup_insert_eq.
  - apply (obj_add_campaign_has (related_object rc C) item true).
    by apply obj_add_campaign_embedded.
  - subst run. rewrite (campaign_add_resolved _ _ _ _ _ _ _ _ _ _ _ _ Ht).
    fold item A'. rewrite (obj_add_campaign_embedded A item u He), Hwalk.
    destruct (validate A'); simpl.
    + by rewrite lookup_insert_ne.
    + rewrite lookup_insert_ne by done. by rewrite lookup_insert_ne.
  - intros HvA. subst run. rewrite (campaign_add_resolved _ _ _ _ _ _ _ _ _ _ _ _ Ht).
    fold item A'. rewrite (obj_add_campaign_embedded A item u He), HvA. simpl.
    split; [done | apply lookup_insert_eq].
  - intros e HvA. subst run. rewrite (campaign_add_resolved _ _ _ _ _ _ _ _ _ _ _ _ Ht).
    fold item A'. by rewrite (obj_add_campaign_embedded A item u He), HvA.
Qed.

Lemma propagation_failure_swallowed_witness :
  let run := campaign_add (H := sample_collaborators) "Foo" "low" "seen in the wild" true
               "alice" (Some "Indicator") (Some "x") None true 10 sample_db in
  let foo := {| ec_name := "Foo"; ec_confidence := "low";
                ec_description := "seen in the wild"; ec_analyst := "alice";
                ec_date := 10 |} in
  sample_validate
    {| tl_type := "Domain"; tl_id := "b";
       tl_doc := {| campaign := campaign domain_b ++ [foo]; relationships := [] |} |}
  <> None
  /\ db_objects (snd run) !! ("Domain", "y")
     = Some {| campaign := [foo]; relationships := [] |}
  /\ db_objects (snd run) !! ("Domain", "b") = Some domain_b
  /\ call_succeeded (fst run) = true.
Proof.
  intros run foo.
  destruct (proj2 (propagation_failure_swallowed (H := sample_collaborators))
              "Foo" "low" "seen in the wild" "alice" (Some "Indicator") (Some "x") None
              true 10%Z sample_db
              {| tl_type := "Indicator"; tl_id := "x"; tl_doc := indicator_x |}
              {| rel_type := "Domain"; object_id := "b"; relationship := "Related To" |}
              {| rel_type := "Domain"; object_id := "y"; relationship := "Related To" |}
              domain_b domain_y
              "confidence: Value must be one of ('low', 'medium', 'high')")
    as (HC & _ & HB & HA & _);
    try reflexivity; try discriminate.
  split_and!.
  - discriminate.
  - exact HC.
  - exact HB.
  - apply HA. reflexivity.
Defined.

(** ** The invariant: one entry per campaign name *)

Section InvariantFacts.
Context `{Collaborators}.

(** What a merging [add_campaign] leaves on an object with unique
    names: one entry of the name, with the confidence and the
    description of the item, and with the analyst and the date of the
    entry that was there, or else the item itself. *)
Lemma obj_add_campaign_update_entries (o : TopLevel) (item : EmbeddedCampaign) :
  unique_names (campaign (tl_doc o)) ->
  r_success (snd (obj_add_campaign o item true)) = true ->
  exists e,
    entries_named (ec_name item) (campaign (tl_doc (fst (obj_add_campaign o item true))))
    = [e]
    /\ ec_confidence e = ec_confidence item
    /\ ec_description e = ec_description item
    /\ (forall e0, entries_named (ec_name item) (campaign (tl_doc o)) = [e0] ->
        ec_analyst e = ec_analyst e0 /\ ec_date e = ec_date e0)
    /\ (has_campaign (ec_name item) (campaign (tl_doc o)) = false -> e = item).
Proof.
  unfold obj_add_campaign. intros Hu.
  destruct (has_campaign _ _) eqn:Hh; destruct (embed_check item); simpl; try done;
    intros _.
  - destruct (entries_named_unique _ _ Hu Hh) as [e0 He0].
    eexists. split; [by apply entries_named_merge|]. simpl.
    split_and!; [done | done | | done].
    intros e1 He1. rewrite He0 in He1. by injection He1 as <-.
  - exists item. split; [by apply entries_named_append|].
    split_and!; [done | done | | done].
    intros e0 He0. by rewrite entries_named_none in He0.
Qed.

Lemma campaign_add_target_failure (ctype oid : option string) (obj : option TopLevel)
    (db : DB) (p : PyDict) :
  campaign_add_target ctype oid obj db = inr p -> succeeded p = false.
Proof.
  unfold campaign_add_target. destruct obj; [done|].
  destruct (truthy ctype && truthy oid); [|by intros [= <-]].
  destruct (class_from_id _ _ _); [done | by intros [= <-]].
Qed.

Lemma campaign_add_target_unique (ctype oid : option string) (obj : option TopLevel)
    (db : DB) (o : TopLevel) :
  db_unique_names db ->
  (forall o', obj = Some o' -> unique_names (campaign (tl_doc o'))) ->
  campaign_add_target ctype oid obj db = inl o ->
  unique_names (campaign (tl_doc o)).
Proof.
  intros Hdb Hobj Ht. destruct obj as [o'|].
  - injection Ht as <-. by apply Hobj.
  - apply campaign_add_target_loaded in Ht as (t & i & _ & _ & Ho).
    by eapply class_from_id_unique.
Qed.

Lemma campaign_add_unique (n c d : string) (rel : bool) (a : string)
    (ctype oid : option string) (obj : option TopLevel) (u : bool) (now : Z) (db : DB) :
  db_unique_names db ->
  (forall o, obj = Some o -> unique_names (campaign (tl_doc o))) ->
  db_unique_names (snd (campaign_add n c d rel a ctype oid obj u now db)).
Proof.
  intros Hdb Hobj.
  destruct (campaign_add_target ctype oid obj db) as [o|p] eqn:Ht.
  - rewrite (campaign_add_resolved _ _ _ _ _ _ _ _ _ _ _ _ Ht).
    pose proof (campaign_add_target_unique _ _ _ _ _ Hdb Hobj Ht) as Ho.
    set (item := {| ec_name := n |}).
    pose proof (obj_add_campaign_unique o item u Ho) as Ho'.
    assert (db_unique_names
              (if rel then campaign_addto_related (fst (obj_add_campaign o item u)) item a db
               else db)) as Hw.
    { destruct rel; [by apply campaign_addto_related_unique | done]. }
    destruct (r_success _); [|done].
    destruct (validate _); simpl; [done | by apply db_unique_insert].
  - unfold campaign_add. by rewrite Ht.
Qed.

Lemma campaign_edit_unique (t i n c d : string) (date : Z) (rel : bool) (a : string)
    (db : DB) :
  db_unique_names db -> db_unique_names (snd (campaign_edit t i n c d date rel a db)).
Proof.
  intros Hdb. unfold campaign_edit.
  destruct (class_from_id t i db) as [o|] eqn:Ho; [|done].
  set (item := {| ec_name := n |}).
  destruct (obj_edit_campaign_frame o item) as [_ Hu].
  specialize (Hu (class_from_id_unique _ _ _ _ Hdb Ho)).
  destruct (obj_edit_campaign o item) as [o' res]. simpl in Hu.
  assert (db_unique_names (if rel then campaign_addto_related o' item a db else db)) as Hw.
  { destruct rel; [by apply campaign_addto_related_unique | done]. }
  pose proof (save_unique o' a _ Hw Hu) as Hs.
  by destruct (save o' a _) as [[[]|[?|?]] db1].
Qed.

Lemma campaign_remove_unique (t i n a : string) (db : DB) :
  db_unique_names db -> db_unique_names (snd (campaign_remove t i n a db)).
Proof.
  intros Hdb. unfold campaign_remove.
  destruct (class_from_id t i db) as [o|] eqn:Ho; [|done].
  destruct (obj_remove_campaign_frame o n) as [_ Hu].
  specialize (Hu (class_from_id_unique _ _ _ _ Hdb Ho)).
  destruct (obj_remove_campaign o n) as [o' res]. simpl in Hu.
  pose proof (save_unique o' a _ Hdb Hu) as Hs.
  by destruct (save o' a _) as [[[]|[?|?]] db1].
Qed.

Lemma campaign_save_objects (c : Campaign) (u : string) (db : DB) :
  db_objects (snd (campaign_save c u db)) = db_objects db.
Proof.
  unfold campaign_save.
  destruct (validate_campaign c); [done|].
  destruct (c_id c); [destruct (existsb _ _)|]; done.
Qed.

Lemma db_unique_objects (db db' : DB) :
  db_objects db' = db_objects db -> db_unique_names db -> db_unique_names db'.
Proof. unfold db_unique_names. by intros ->. Qed.

Lemma campaign_save_unique (c : Campaign) (u : string) (db : DB) :
  db_unique_names db -> db_unique_names (snd (campaign_save c u db)).
Proof. apply db_unique_objects, campaign_save_objects. Qed.

Lemma add_campaign_unique (name description : string) (aliases : AliasArg)
    (analyst : string) (bl tk rid rty rel : option string) (db : DB) :
  db_unique_names db ->
  db_unique_names
    (snd (add_campaign name description aliases analyst bl tk rid rty rel db)).
Proof.
  intros Hdb. unfold add_campaign.
  destruct (campaign_by_name name db); [done|].
  remember (add_alias _ _) as c0 eqn:Hc0. clear Hc0.
  assert (forall ro, add_campaign_related rid rty db = Returned (Some ro) ->
                     unique_names (campaign (tl_doc ro))) as Hro.
  { unfold add_campaign_related. intros ro.
    destruct (truthy rid && truthy rty); [|done].
    destruct (class_from_id _ _ db) eqn:Ho; [|done].
    intros [= <-]. by eapply class_from_id_unique. }
  destruct (add_campaign_related rid rty db) as [ro|e]; [|done].
  pose proof (campaign_save_unique c0 analyst db Hdb) as H1.
  destruct (campaign_save c0 analyst db) as [[c1|e] db1]; [|done]. simpl in H1.
  assert (db_unique_names (snd (add_campaign_link ro rel c1 analyst db1))) as H2.
  { unfold add_campaign_link. destruct ro as [o|]; [|done].
    destruct (truthy rel); [|done]. unfold add_relationship.
    match goal with |- context [campaign_save ?c ?u ?db0] =>
      assert (db_unique_names db0) as H0
        by (apply db_unique_insert; [done | by apply Hro]);
      pose proof (campaign_save_unique c u db0 H0) as H2;
      by destruct (campaign_save c u db0) as [[?|?] ?]
    end. }
  destruct (add_campaign_link ro rel c1 analyst db1) as [[c2|e] db2]; [|done].
  simpl in H2. unfold add_campaign_finish.
  pose proof (campaign_save_unique c2 analyst db2 H2) as H3.
  by destruct (campaign_save c2 analyst db2) as [[?|[?|?]] ?].
Qed.

Lemma remove_campaign_unique (name analyst : string) (db : DB) :
  db_unique_names db -> db_unique_names (snd (remove_campaign name analyst db)).
Proof.
  unfold remove_campaign. by destruct (campaign_by_name name db).
Qed.

End InvariantFacts.

(** C1. Attributing a campaign name twice to one object with
    [update=True] leaves the object with exactly one entry of that
    name, whose confidence and description are those of the second
    call and whose analyst and date are those the entry had after the
    first call (those of the first call when the object had no entry
    of the name before it); [campaign_add] has no argument that would
    override them.  And no operation produces two entries of one name
    on an object: each handler keeps the entries of every stored
    object unique by name. *)
Theorem campaign_add_twice_merges `{Collaborators} :
  (forall (n c1 d1 : string) (rel1 : bool) (a1 : string) (now1 : Z)
          (c2 d2 : string) (rel2 : bool) (a2 : string) (now2 : Z)
          (t i : string) (db : DB),
      let run1 := campaign_add n c1 d1 rel1 a1 (Some t) (Some i) None true now1 db in
      let run2 :=
        campaign_add n c2 d2 rel2 a2 (Some t) (Some i) None true now2 (snd run1) in
      db_unique_names db ->
      call_succeeded (fst run1) = true ->
      call_succeeded (fst run2) = true ->
      exists doc1 doc2 e1 e2,
        db_objects (snd run1) !! (t, i) = Some doc1
        /\ entries_named n (campaign doc1) = [e1]
        /\ db_objects (snd run2) !! (t, i) = Some doc2
        /\ entries_named n (campaign doc2) = [e2]
        /\ ec_confidence e2 = c2 /\ ec_description e2 = d2
        /\ ec_analyst e2 = ec_analyst e1 /\ ec_date e2 = ec_date e1
        /\ ((forall doc0, db_objects db !! (t, i) = Some doc0 ->
                          has_campaign n (campaign doc0) = false) ->
            ec_analyst e1 = a1 /\ ec_date e1 = now1))
  /\ (forall n c d rel a ctype oid obj u now db,
         db_unique_names db ->
         (forall o, obj = Some o -> unique_names (campaign (tl_doc o))) ->
         db_unique_names (snd (campaign_add n c d rel a ctype oid obj u now db)))
  /\ (forall t i n c d date rel a db,
         db_unique_names db ->
         db_unique_names (snd (campaign_edit t i n c d date rel a db)))
  /\ (forall t i n a db,
         db_unique_names db -> db_unique_names (snd (campaign_remove t i n a db)))
  /\ (forall o item a db,
         db_unique_names db -> db_unique_names (campaign_addto_related o item a db))
  /\ (forall name description aliases analyst bl tk rid rty rel db,
         db_unique_names db ->
         db_unique_names
           (snd (add_campaign name description aliases analyst bl tk rid rty rel db)))
  /\ (forall name analyst db,
         db_unique_names db -> db_unique_names (snd (remove_campaign name analyst db))).
Proof.
  split_and!;
    [| apply campaign_add_unique | apply campaign_edit_unique
     | apply campaign_remove_unique | apply campaign_addto_related_unique
     | apply add_campaign_unique | apply remove_campaign_unique].
  intros n c1 d1 rel1 a1 now1 c2 d2 rel2 a2 now2 t i db run1 run2 Hdb Hs1 Hs2.
  (* the first call *)
  destruct (campaign_add_target (Some t) (Some i) None db) as [o1|p] eqn:Ht1; cycle 1.
  { subst run1. unfold campaign_add in Hs1. rewrite Ht1 in Hs1. simpl in Hs1.
    by rewrite (campaign_add_target_failure _ _ _ _ _ Ht1) in Hs1. }
  assert (unique_names (campaign (tl_doc o1))) as Hu1.
  { eapply campaign_add_target_unique; [exact Hdb | | exact Ht1]. done. }
  destruct (campaign_add_target_loaded _ _ _ _ Ht1) as (t' & i' & [= <-] & [= <-] & Ho1).
  destruct (class_from_id_loaded _ _ _ _ Ho1) as (Hct & Hk1 & Hd1).
  set (item1 := {| ec_name := n; ec_confidence := c1; ec_description := d1;
                   ec_analyst := a1; ec_date := now1 |}).
  set (item2 := {| ec_name := n; ec_confidence := c2; ec_description := d2;
                   ec_analyst := a2; ec_date := now2 |}).
  assert (r_success (snd (obj_add_campaign o1 item1 true)) = true
          /\ db_objects (snd run1) !! (t, i)
             = Some (tl_doc (fst (obj_add_campaign o1 item1 true)))) as [Hr1 Hdoc1].
  { subst run1. rewrite (campaign_add_resolved _ _ _ _ _ _ _ _ _ _ _ _ Ht1) in Hs1 |- *.
    fold item1 in Hs1 |- *.
    destruct (r_success (snd (obj_add_campaign o1 item1 true))); [|done].
    destruct (validate (fst (obj_add_campaign o1 item1 true))); [done|].
    simpl. rewrite Hk1. split; [done | apply lookup_insert_eq]. }
  destruct (obj_add_campaign_update_entries o1 item1 Hu1 Hr1)
    as (e1 & He1 & _ & _ & _ & Hfresh1).
  pose proof (obj_add_campaign_unique o1 item1 true Hu1) as Hu1'.
  (* the second call *)
  destruct (campaign_add_target (Some t) (Some i) None (snd run1)) as [o2|p] eqn:Ht2;
    cycle 1.
  { subst run2. unfold campaign_add in Hs2. rewrite Ht2 in Hs2. simpl in Hs2.
    by rewrite (campaign_add_target_failure _ _ _ _ _ Ht2) in Hs2. }
  destruct (campaign_add_target_loaded _ _ _ _ Ht2) as (t' & i' & [= <-] & [= <-] & Ho2).
  destruct (class_from_id_loaded _ _ _ _ Ho2) as (_ & Hk2 & Hd2).
  rewrite Hdoc1 in Hd2. injection Hd2 as Hd2.
  assert (r_success (snd (obj_add_campaign o2 item2 true)) = true
          /\ db_objects (snd run2) !! (t, i)
             = Some (tl_doc (fst (obj_add_campaign o2 item2 true)))) as [Hr2 Hdoc2].
  { subst run2. rewrite (campaign_add_resolved _ _ _ _ _ _ _ _ _ _ _ _ Ht2) in Hs2 |- *.
    fold item2 in Hs2 |- *.
    destruct (r_success (snd (obj_add_campaign o2 item2 true))); [|done].
    destruct (validate (fst (obj_add_campaign o2 item2 true))); [done|].
    simpl. rewrite Hk2. split; [done | apply lookup_insert_eq]. }
  assert (unique_names (campaign (tl_doc o2))) as Hu2 by (by rewrite <- Hd2).
  destruct (obj_add_campaign_update_entries o2 item2 Hu2 Hr2)
    as (e2 & He2 & Hc2 & Hde2 & Hkeep & _).
  rewrite <- Hd2 in Hkeep. destruct (Hkeep e1 He1) as [Ha2 Hdt2].
  exists (tl_doc (fst (obj_add_campaign o1 item1 true))),
         (tl_doc (fst (obj_add_campaign o2 item2 true))), e1, e2.
  split_and!; try done.
  intros Hnone. rewrite (Hfresh1 (Hnone _ Hd1)). done.
Qed.

Lemma sample_db_unique : db_unique_names sample_db.
Proof.
  intros k d. unfold sample_db. simpl.
  rewrite !lookup_insert.
  repeat case_decide; try done; intros [= <-]; unfold unique_names; compute_done.
Qed.

Lemma campaign_add_twice_merges_witness :
  let run1 := campaign_add (H := sample_collaborators) "Foo" "low" "seen in the wild" true
                "alice" (Some "Indicator") (Some "x") None true 10 sample_db in
  let run2 := campaign_add (H := sample_collaborators) "Foo" "high" "confirmed" false
                "bob" (Some "Indicator") (Some "x") None true 20 (snd run1) in
  exists doc2 e2,
    db_objects (snd run2) !! ("Indicator", "x") = Some doc2
    /\ entries_named "Foo" (campaign doc2) = [e2]
    /\ ec_confidence e2 = "high" /\ ec_description e2 = "confirmed"
    /\ ec_analyst e2 = "alice" /\ ec_date e2 = 10%Z.
Proof.
  intros run1 run2.
  destruct (proj1 (campaign_add_twice_merges (H := sample_collaborators))
              "Foo" "low" "seen in the wild" true "alice" 10%Z
              "high" "confirmed" false "bob" 20%Z "Indicator" "x" sample_db)
    as (doc1 & doc2 & e1 & e2 & _ & _ & Hdoc2 & He2 & Hc & Hd & Ha & Hdt & Hfirst).
  - exact sample_db_unique.
  - vm_compute. reflexivity.
  - vm_compute. reflexivity.
  - destruct Hfirst as [Ha1 Hd1].
    { intros doc0 Hdoc0. change (Some indicator_x = Some doc0) in Hdoc0.
      injection Hdoc0 as <-. reflexivity. }
    exists doc2, e2. rewrite Ha1 in Ha. rewrite Hd1 in Hdt.
    split_and!; [exact Hdoc2 | exact He2 | exact Hc | exact Hd | exact Ha | exact Hdt].
Defined.

(** ** The example of the specification, end to end

    Campaign "Foo" is created and attributed to Indicator x with
    confidence low and propagation: x and the related Domain y hold
    one entry each.  A second attribution to x with confidence high
    and without propagation changes the entry of x and not that of
    y. *)
Example attribution_end_to_end :
  let db1 := snd (add_campaign (H := sample_collaborators) "Foo" "a new campaign"
                    (AliasStr "a, b ,c") "alice" None None None None None sample_db) in
  let db2 := snd (campaign_add (H := sample_collaborators) "Foo" "low" "" true "alice"
                    (Some "Indicator") (Some "x") None true 10 db1) in
  let db3 := snd (campaign_add (H := sample_collaborators) "Foo" "high" "" false "bob"
                    (Some "Indicator") (Some "x") None true 20 db2) in
  let foo c := {| ec_name := "Foo"; ec_confidence := c; ec_description := "";
                  ec_analyst := "alice"; ec_date := 10 |} in
  campaign <$> db_objects db2 !! ("Indicator", "x") = Some [foo "low"]
  /\ campaign <$> db_objects db2 !! ("Domain", "y") = Some [foo "low"]
  /\ campaign <$> db_objects db3 !! ("Indicator", "x") = Some [foo "high"]
  /\ campaign <$> db_objects db3 !! ("Domain", "y") = Some [foo "low"].
Proof. vm_compute. done. Qed.

(** ** Handlers that always return

    Apart from [add_campaign], the handlers modelled here hand every
    failure back as a result dict. *)

Section ReturnFacts.
Context `{Collaborators}.

Lemma campaign_add_returns (n c d : string) (rel : bool) (a : string)
    (ctype oid : option string) (obj : option TopLevel) (u : bool) (now : Z) (db : DB) :
  exists r, fst (campaign_add n c d rel a ctype oid obj u now db) = Returned r.
Proof.
  destruct (campaign_add_target ctype oid obj db) as [o|p] eqn:Ht.
  - rewrite (campaign_add_resolved _ _ _ _ _ _ _ _ _ _ _ _ Ht).
    destruct (r_success _); [destruct (validate _)|]; by eexists.
  - unfold campaign_add. rewrite Ht. by eexists.
Qed.

Lemma campaign_edit_returns (t i n c d : string) (date : Z) (rel : bool) (a : string)
    (db : DB) :
  exists r, fst (campaign_edit t i n c d date rel a db) = Returned r.
Proof.
  destruct (class_from_id t i db) as [o|] eqn:Ho.
  - rewrite (campaign_edit_resolved _ _ _ _ _ _ _ _ _ _ Ho).
    destruct (validate _); by eexists.
  - unfold campaign_edit. rewrite Ho. by eexists.
Qed.

Lemma campaign_remove_returns (t i n a : string) (db : DB) :
  exists r, fst (campaign_remove t i n a db) = Returned r.
Proof.
  destruct (class_from_id t i db) as [o|] eqn:Ho.
  - rewrite (campaign_remove_resolved _ _ _ _ _ _ Ho).
    destruct (validate _); by eexists.
  - unfold campaign_remove. rewrite Ho. by eexists.
Qed.

Lemma remove_campaign_returns (name analyst : string) (db : DB) :
  exists r, fst (remove_campaign name analyst db) = Returned r.
Proof.
  unfold remove_campaign. destruct (campaign_by_name name db); by eexists.
Qed.

End ReturnFacts.

(** * Further properties of the handlers *)

(** ** Monthly statistics *)

Lemma stats_data_elem (value : gmap string Z) (keys : list string) (k : string) (v : Z) :
  (k, v) ∈ stats_data value keys <-> k ∈ keys /\ value !! k = Some v.
Proof.
  induction keys as [|k' ks IH]; simpl.
  - rewrite !elem_of_nil. tauto.
  - destruct (value !! k') as [v'|] eqn:Hk'.
    + rewrite !elem_of_cons, IH. split.
      * intros [[= -> ->]|[? ?]]; [by split; [left|] | by split; [right|]].
      * intros [[->|Hin] Hv]; [left; congruence | by right].
    + rewrite IH, elem_of_cons. split; [intros [? ?]; by split; [right|]|].
      intros [[->|Hin] Hv]; [congruence | done].
Qed.

Lemma stats_data_keys (value : gmap string Z) (keys : list string) :
  (forall k, k ∈ keys -> is_Some (value !! k)) ->
  (stats_data value keys).*1 = keys.
Proof.
  induction keys as [|k ks IH]; simpl; intros Hk; [done|].
  destruct (Hk k) as [v Hv]; [by left|]. rewrite Hv. csimpl.
  rewrite IH; [done|]. intros k' Hk'. apply Hk. by right.
Qed.

Lemma sorted_keys_elem (value : gmap string Z) (k : string) :
  k ∈ sorted ((map_to_list value).*1) <-> is_Some (value !! k).
Proof.
  unfold sorted. rewrite merge_sort_Permutation, list_elem_of_fmap. split.
  - intros ([k' v] & -> & Hin). apply elem_of_map_to_list in Hin. by exists v.
  - intros [v Hv]. exists (k, v). split; [done|]. by apply elem_of_map_to_list.
Qed.

(** The data of a series: the keys of the dict, every one, in
    ascending order, each with its value. *)
Lemma stats_data_sorted (value : gmap string Z) :
  let data := stats_data value (sorted ((map_to_list value).*1)) in
  Sorted str_le data.*1
  /\ NoDup data.*1
  /\ length data = size value
  /\ list_to_map data = value.
Proof.
  intros data.
  assert (data.*1 = sorted ((map_to_list value).*1)) as Hkeys.
  { apply stats_data_keys. intros k. apply sorted_keys_elem. }
  assert (NoDup data.*1) as Hnd.
  { rewrite Hkeys. unfold sorted. rewrite merge_sort_Permutation.
    apply NoDup_fst_map_to_list. }
  split_and!; [| done | |].
  - rewrite Hkeys. apply (Sorted_merge_sort str_le).
  - rewrite <- (length_fmap fst data), Hkeys. unfold sorted.
    rewrite merge_sort_Permutation, length_fmap. by rewrite length_map_to_list.
  - apply map_eq. intros k. apply option_eq. intros v.
    rewrite <- elem_of_list_to_map by done. subst data.
    rewrite stats_data_elem, sorted_keys_elem. split; [tauto|]. intros Hv. by split; [exists v|].
Qed.

Lemma stats_loop_elem (campaign : string) (results : list MonthlyResult) (s : Series) :
  s ∈ stats_loop campaign results ->
  exists r, r ∈ results
    /\ (campaign = mr_campaign r \/ campaign = "all")
    /\ s = {| s_label := mr_campaign r;
              s_data := stats_data (mr_value r) (sorted ((map_to_list (mr_value r)).*1)) |}.
Proof.
  induction results as [|r rs IH]; simpl; [by rewrite elem_of_nil|].
  destruct (String.eqb campaign (mr_campaign r) || String.eqb campaign "all") eqn:E.
  - rewrite elem_of_cons. intros [->|Hin].
    + exists r. split_and!; [by left | | done].
      apply orb_true_iff in E as [E|E]; apply String.eqb_eq in E; auto.
    + destruct (IH Hin) as (r' & ? & ? & ?). exists r'. split_and!; [by right | done | done].
  - intros Hin. destruct (IH Hin) as (r' & ? & ? & ?).
    exists r'. split_and!; [by right | done | done].
Qed.

Lemma stats_loop_labels (campaign : string) (results : list MonthlyResult) :
  s_label <$> stats_loop campaign results
  = List.filter (fun n => String.eqb campaign n || String.eqb campaign "all")
      (mr_campaign <$> results).
Proof.
  induction results as [|r rs IH]; csimpl; [done|].
  destruct (String.eqb campaign (mr_campaign r) || String.eqb campaign "all");
    csimpl; by rewrite IH.
Qed.

(** X1. Every series that [get_campaign_stats] returns comes from a
    result of the "campaign_monthly" document whose campaign is the
    one asked for (or from any result, when "all" is asked for); its
    label is that campaign, and its data are the months of the result
    in ascending order, each once, with their counts: read back as a
    dict they are the dict of the result. *)
Theorem get_campaign_stats_series (campaign : string) (stats : list Statistic) (s : Series) :
  s ∈ get_campaign_stats campaign stats ->
  exists stat r,
    find_campaign_monthly stats = Some stat
    /\ r ∈ stat_results stat
    /\ (campaign = mr_campaign r \/ campaign = "all")
    /\ s_label s = mr_campaign r
    /\ Sorted str_le (s_data s).*1
    /\ NoDup (s_data s).*1
    /\ length (s_data s) = size (mr_value r)
    /\ list_to_map (s_data s) = mr_value r.
Proof.
  unfold get_campaign_stats.
  destruct (find_campaign_monthly stats) as [stat|]; [|by rewrite elem_of_nil].
  intros Hin. apply stats_loop_elem in Hin as (r & Hr & Hc & ->).
  exists stat, r. simpl.
  destruct (stats_data_sorted (mr_value r)) as (? & ? & ? & ?). by split_and!.
Qed.

Lemma get_campaign_stats_series_witness :
  exists s,
    s ∈ get_campaign_stats "Bar" sample_stats
    /\ s_label s = "Bar"
    /\ s_data s = [("2012-11", 7%Z); ("2013-01", 1%Z); ("2013-05", 3%Z)]
    /\ Sorted str_le (s_data s).*1.
Proof.
  exists {| s_label := "Bar";
            s_data := [("2012-11", 7%Z); ("2013-01", 1%Z); ("2013-05", 3%Z)] |}.
  assert ({| s_label := "Bar";
             s_data := [("2012-11", 7%Z); ("2013-01", 1%Z); ("2013-05", 3%Z)] |}
          ∈ get_campaign_stats "Bar" sample_stats) as Hin.
  { assert (get_campaign_stats "Bar" sample_stats
            = [ {| s_label := "Bar";
                   s_data := [("2012-11", 7%Z); ("2013-01", 1%Z); ("2013-05", 3%Z)] |};
                {| s_label := "Bar"; s_data := [] |} ]) as ->
      by (vm_compute; reflexivity).
    apply elem_of_cons; by left. }
  destruct (get_campaign_stats_series "Bar" sample_stats _ Hin)
    as (stat & r & _ & _ & _ & _ & Hsorted & _).
  split_and!; [exact Hin | reflexivity | reflexivity | exact Hsorted].
Defined.

(** X2. The labels of the series are, in the order of the results,
    the campaigns of the results that are selected: for "all", those
    of every result (so that a campaign which is itself named "all"
    cannot be asked for alone); for any other name, that name, once
    per result of that campaign; and without a "campaign_monthly"
    document there is no series. *)
Theorem get_campaign_stats_labels (campaign : string) (stats : list Statistic) :
  let results := from_option stat_results [] (find_campaign_monthly stats) in
  let labels := s_label <$> get_campaign_stats campaign stats in
  labels = List.filter (fun n => String.eqb campaign n || String.eqb campaign "all")
             (mr_campaign <$> results)
  /\ (campaign = "all" -> labels = mr_campaign <$> results)
  /\ (campaign <> "all" ->
      labels = replicate (length (List.filter (String.eqb campaign)
                                    (mr_campaign <$> results))) campaign)
  /\ (find_campaign_monthly stats = None -> get_campaign_stats campaign stats = []).
Proof.
  intros results labels.
  assert (labels = List.filter
                     (fun n => String.eqb campaign n || String.eqb campaign "all")
                     (mr_campaign <$> results)) as Hl.
  { subst labels results. unfold get_campaign_stats.
    destruct (find_campaign_monthly stats); [apply stats_loop_labels | done]. }
  split_and!; [done | | |].
  - intros ->. rewrite Hl. simpl. generalize (mr_campaign <$> results).
    intros l. induction l as [|n l IH]; simpl; [done|].
    rewrite orb_true_r. by rewrite IH.
  - intros Hne. rewrite Hl. apply String.eqb_neq in Hne. rewrite Hne.
    generalize (mr_campaign <$> results).
    intros l. induction l as [|n l IH]; simpl; [done|].
    rewrite orb_false_r. destruct (String.eqb campaign n) eqn:E; simpl; [|done].
    apply String.eqb_eq in E. by rewrite IH, E.
  - unfold get_campaign_stats. by intros ->.
Qed.

Lemma get_campaign_stats_labels_witness :
  s_label <$> get_campaign_stats "all" sample_stats = ["Bar"; "Foo"; "Bar"]
  /\ s_label <$> get_campaign_stats "Bar" sample_stats = ["Bar"; "Bar"]
  /\ get_campaign_stats "Bar" [] = [].
Proof.
  destruct (get_campaign_stats_labels "all" sample_stats) as (_ & Hall & _ & _).
  destruct (get_campaign_stats_labels "Bar" sample_stats) as (_ & _ & Hbar & _).
  destruct (get_campaign_stats_labels "Bar" []) as (_ & _ & _ & Hnone).
  split_and!; [apply Hall; reflexivity | apply Hbar; discriminate | apply Hnone; reflexivity].
Defined.

(** ** The alias normalization of [add_campaign] *)

Lemma split_length (s : string) : length (split comma s) = S (count_commas s).
Proof.
  induction s as [|c s IH]; simpl; [done|].
  destruct (Ascii.eqb c comma); simpl; [by rewrite IH|].
  destruct (split comma s) as [|p ps]; simpl in *; [done | exact IH].
Qed.

Lemma split_no_comma (s p : string) : p ∈ split comma s -> has_comma p = false.
Proof.
  revert p. induction s as [|c s IH]; simpl; intros p.
  - rewrite list_elem_of_singleton. by intros ->.
  - destruct (Ascii.eqb c comma) eqn:E.
    + rewrite elem_of_cons. intros [->|Hin]; [done | by apply IH].
    + destruct (split comma s) as [|q qs].
      * rewrite list_elem_of_singleton. intros ->. simpl. by rewrite E.
      * rewrite elem_of_cons. intros [->|Hin].
        -- simpl. rewrite E. apply IH. by left.
        -- apply IH. by right.
Qed.

Lemma lstrip_no_comma (s : string) : has_comma s = false -> has_comma (lstrip s) = false.
Proof.
  induction s as [|c s IH]; simpl; [done|].
  intros Hc. apply orb_false_iff in Hc as [Hc Hs].
  destruct (is_whitespace c); [by apply IH | simpl; by rewrite Hc, Hs].
Qed.

Lemma rstrip_no_comma (s : string) : has_comma s = false -> has_comma (rstrip s) = false.
Proof.
  induction s as [|c s IH]; simpl; [done|].
  intros Hc. apply orb_false_iff in Hc as [Hc Hs]. specialize (IH Hs).
  destruct (rstrip s) as [|c' r].
  - destruct (is_whitespace c); simpl; [done | by rewrite Hc].
  - simpl in *. by rewrite Hc, IH.
Qed.

Lemma split_single (s : string) : count_commas s = 0 -> split comma s = [s].
Proof.
  induction s as [|c s IH]; simpl; [done|].
  destruct (Ascii.eqb c comma); simpl; [done|]. intros Hc. by rewrite (IH Hc).
Qed.

(** X3. The "Adjust aliases" step gives, for a string, one alias per
    comma-separated piece, that is one more than the string has
    commas (never none: the empty string gives one empty alias); no
    alias contains a comma or starts or ends with whitespace, and a
    string without a comma gives the stripped string alone.  For a
    list it gives one alias per element. *)
Theorem final_aliases_shape (s : string) (l : list string) :
  length (final_aliases (AliasStr s)) = S (count_commas s)
  /\ (forall a, a ∈ final_aliases (AliasStr s) ->
        has_comma a = false /\ leading_space a = false /\ trailing_space a = false)
  /\ (count_commas s = 0 -> final_aliases (AliasStr s) = [strip s])
  /\ length (final_aliases (AliasList l)) = length l.
Proof.
  simpl. split_and!.
  - by rewrite length_fmap, split_length.
  - intros a Ha. apply list_elem_of_fmap in Ha as (p & -> & Hp).
    destruct (strip_trimmed p) as [? ?]. split_and!; [|done|done].
    apply rstrip_no_comma, lstrip_no_comma. by apply split_no_comma with s.
  - intros Hc. by rewrite split_single.
  - by rewrite length_fmap.
Qed.

Lemma final_aliases_shape_witness :
  final_aliases (AliasStr " solo ") = ["solo"]
  /\ length (final_aliases (AliasStr "")) = 1
  /\ has_comma "solo" = false.
Proof.
  destruct (final_aliases_shape " solo " []) as (_ & Hall & Hone & _).
  destruct (final_aliases_shape "" []) as (Hlen & _).
  split_and!; [apply Hone; reflexivity | exact Hlen |].
  apply (Hall "solo"). rewrite Hone by reflexivity. apply elem_of_cons. by left.
Defined.

(** ** What a successful creation stores *)

Section CreationFacts.
Context `{Collaborators}.

Lemma find_app_none {A : Type} (P : A -> bool) (l : list A) (x : A) :
  List.find P l = None -> P x = true -> List.find P (l ++ [x]) = Some x.
Proof.
  induction l as [|a l IH]; simpl; intros Hl Hx; [by rewrite Hx|].
  destruct (P a); [done | by apply IH].
Qed.

Lemma find_named_replace_exact (name i : string) (self c0 : Campaign) (l : list Campaign) :
  c_name self = name ->
  List.find (fun c => String.eqb (c_name c) name) l = Some c0 ->
  has_id i c0 = true ->
  List.find (fun c => String.eqb (c_name c) name)
    ((fun c => if has_id i c then self else c) <$> l) = Some self.
Proof.
  intros Hn. induction l as [|a l IH]; csimpl; [done|]. intros Hf Hi.
  destruct (has_id i a) eqn:Ha.
  - by rewrite Hn, String.eqb_refl.
  - destruct (String.eqb (c_name a) name); [|by apply IH].
    injection Hf as ->. congruence.
Qed.

Lemma find_some_existsb {A : Type} (P Q : A -> bool) (l : list A) (x : A) :
  List.find P l = Some x -> Q x = true -> existsb Q l = true.
Proof.
  induction l as [|a l IH]; simpl; [done|].
  destruct (P a).
  - intros [= ->] ->. done.
  - intros Hf Hq. rewrite (IH Hf Hq). apply orb_true_r.
Qed.

(** The first save of a Campaign whose name is new. *)
Lemma campaign_save_first (self self' : Campaign) (u : string) (db db' : DB) :
  campaign_by_name (c_name self) db = None ->
  c_id self = None ->
  campaign_save self u db = (Returned self', db') ->
  self' = {| c_id := Some (new_object_id (db_next_oid db)); c_name := c_name self;
             c_description := c_description self; c_aliases := c_aliases self;
             c_bucket_list := c_bucket_list self; c_tickets := c_tickets self;
             c_relationships := c_relationships self |}
  /\ campaign_by_name (c_name self) db' = Some self'
  /\ db_objects db' = db_objects db
  /\ db_next_oid db' = S (db_next_oid db).
Proof.
  unfold campaign_save, campaign_by_name. intros Hf Hid.
  destruct (validate_campaign self); [done|]. rewrite Hid.
  intros [= <- <-]. simpl. split_and!; try done.
  apply find_app_none; [done|]. simpl. apply String.eqb_refl.
Qed.

(** A later save of the Campaign that its name finds. *)
Lemma campaign_save_again (self self' c0 : Campaign) (i u : string) (db db' : DB) :
  c_id self = Some i ->
  campaign_by_name (c_name self) db = Some c0 ->
  c_id c0 = Some i ->
  campaign_save self u db = (Returned self', db') ->
  self' = self
  /\ campaign_by_name (c_name self) db' = Some self
  /\ db_objects db' = db_objects db
  /\ db_next_oid db' = db_next_oid db.
Proof.
  unfold campaign_save, campaign_by_name. intros Hid Hf Hid0.
  assert (has_id i c0 = true) as Hh by (by apply bool_decide_eq_true).
  destruct (validate_campaign self); [done|]. rewrite Hid.
  rewrite (find_some_existsb _ (has_id i) _ _ Hf Hh).
  intros [= <- <-]. simpl. split_and!; try done.
  by apply find_named_replace_exact with c0.
Qed.

Lemma add_campaign_link_exact (ro : option TopLevel) (rel : option string)
    (c c' : Campaign) (analyst i : string) (db db' : DB) :
  add_campaign_link ro rel c analyst db = (Returned c', db') ->
  c_id c = Some i ->
  campaign_by_name (c_name c) db = Some c ->
  c_id c' = Some i /\ c_name c' = c_name c
  /\ campaign_by_name (c_name c) db' = Some c'
  /\ db_next_oid db' = db_next_oid db
  /\ c' = match ro with
          | Some o =>
              if truthy rel then
                {| c_id := c_id c; c_name := c_name c; c_description := c_description c;
                   c_aliases := c_aliases c; c_bucket_list := c_bucket_list c;
                   c_tickets := c_tickets c;
                   c_relationships :=
                     c_relationships c
                     ++ [ {| rel_type := tl_type o; object_id := tl_id o;
                             relationship := inverse (default "" rel) |} ] |}
              else c
          | None => c
          end
  /\ ((ro = None \/ truthy rel = false) -> db_objects db' = db_objects db).
Proof.
  unfold add_campaign_link. intros Hrun Hid Hf.
  destruct ro as [o|]; [destruct (truthy rel)|];
    try (injection Hrun as <- <-; split_and!; by auto).
  unfold add_relationship in Hrun.
  destruct (campaign_save _ _ _) as [[c2|e] db2] eqn:S2; [|done].
  injection Hrun as <- <-.
  rewrite (campaign_save_reload _ _ _ _ _ S2) by (simpl; by rewrite Hid).
  eapply campaign_save_again in S2 as (-> & Hfound & _ & Hnext);
    [| exact Hid | exact Hf | exact Hid].
  simpl in *. split_and!; try done. by intros [?|?].
Qed.

Lemma add_campaign_finish_exact (c : Campaign) (analyst i : string) (db db' : DB)
    (d : PyDict) :
  add_campaign_finish c analyst db = (Returned d, db') ->
  succeeded d = true ->
  c_id c = Some i ->
  campaign_by_name (c_name c) db = Some c ->
  d = [("success", PyBool true); ("message", PyStr "Campaign created successfully!");
       ("id", PyStr i)]
  /\ campaign_by_name (c_name c) db' = Some c
  /\ db_objects db' = db_objects db
  /\ db_next_oid db' = db_next_oid db.
Proof.
  unfold add_campaign_finish. intros Hrun Hsucc Hid Hf.
  destruct (campaign_save c analyst db) as [[c1|[?|?]] db1] eqn:S1; try done.
  - injection Hrun as <- <-.
    rewrite (campaign_save_reload _ _ _ _ _ S1) by (by rewrite Hid).
    eapply campaign_save_again in S1 as (_ & Hfound & Hobj & Hnext);
      [| exact Hid | exact Hf | exact Hid].
    rewrite Hid. simpl. by split_and!.
  - injection Hrun as <- <-. done.
Qed.

End CreationFacts.

(** The outcome of a successful [add_campaign], in full. *)
Lemma add_campaign_created `{Collaborators} (name description : string)
    (aliases : AliasArg) (analyst : string) (bl tk rid rty rel : option string)
    (db db' : DB) (d : PyDict) :
  add_campaign name description aliases analyst bl tk rid rty rel db = (Returned d, db') ->
  succeeded d = true ->
  let i := new_object_id (db_next_oid db) in
  let linked := truthy rid && truthy rty && truthy rel in
  d = [("success", PyBool true); ("message", PyStr "Campaign created successfully!");
       ("id", PyStr i)]
  /\ campaign_by_name name db'
     = Some {| c_id := Some i; c_name := name; c_description := description;
               c_aliases := add_aliases [] (final_aliases aliases);
               c_bucket_list := if truthy bl then [default "" bl] else [];
               c_tickets := if truthy tk then [default "" tk] else [];
               c_relationships :=
                 if linked
                 then [ {| rel_type := default "" rty; object_id := default "" rid;
                           relationship := inverse (default "" rel) |} ]
                 else [] |}
  /\ db_next_oid db' = S (db_next_oid db)
  /\ (linked = false -> db_objects db' = db_objects db)
  /\ campaign_by_name name db = None.
Proof.
  intros Hrun Hsucc i linked. unfold add_campaign in Hrun.
  destruct (campaign_by_name name db) eqn:Hfind.
  { injection Hrun as <- <-. done. }
  remember (add_alias _ _) as c0 eqn:Hc0 in Hrun.
  assert (c0 = {| c_id := None; c_name := name; c_description := description;
                  c_aliases := add_aliases [] (final_aliases aliases);
                  c_bucket_list := if truthy bl then [default "" bl] else [];
                  c_tickets := if truthy tk then [default "" tk] else [];
                  c_relationships := [] |}) as ->.
  { subst c0. by destruct (truthy bl), (truthy tk). }
  clear Hc0.
  destruct (add_campaign_related rid rty db) as [ro|e] eqn:Hro; [|done].
  assert (match ro with
          | Some o => truthy rid && truthy rty = true
                      /\ tl_type o = default "" rty /\ tl_id o = default "" rid
          | None => truthy rid && truthy rty = false
          end) as Hshape.
  { unfold add_campaign_related in Hro.
    destruct (truthy rid && truthy rty); [|by injection Hro as <-].
    destruct (class_from_id _ _ db) as [o|] eqn:Ho; [|done]. injection Hro as <-.
    apply class_from_id_loaded in Ho as (_ & [= ? ?] & _). done. }
  destruct (campaign_save _ analyst db) as [[c1|e] db1] eqn:S1; [|done].
  apply campaign_save_first in S1 as (-> & F1 & O1 & N1); [| done | done].
  simpl in F1.
  destruct (add_campaign_link ro rel _ analyst db1) as [[c2|e] db2] eqn:L; [|done].
  eapply add_campaign_link_exact in L as (I2 & M2 & F2 & N2 & E2 & O2);
    [| reflexivity | exact F1].
  simpl in F2, M2, E2.
  eapply add_campaign_finish_exact in Hrun as (-> & F3 & O3 & N3);
    [| done | exact I2 | by rewrite M2].
  rewrite M2 in F3. rewrite F3, N3, N2, N1, O3.
  split_and!; [done | | done | | done].
  - f_equal. rewrite E2. subst linked. destruct ro as [o|].
    + destruct Hshape as (-> & -> & ->). simpl. by destruct (truthy rel).
    + by rewrite Hshape.
  - subst linked. intros Hl. rewrite O2, O1; [done|].
    destruct ro as [o|]; [|by left]. destruct Hshape as (Ht & _).
    rewrite Ht in Hl. by right.
Qed.

(** X4. A successful [add_campaign] returns the id that the store
    gave the new document, and the Campaign then found under the name
    has that id, the description given and the deduplicated stripped
    aliases; when a related object and a relationship type are given
    it has one relationship, to that object, whose type is the inverse
    of the one asked for, and otherwise none.  Without such a link no
    other collection is touched.  Success is possible for a new name
    only. *)
Theorem add_campaign_creates `{Collaborators} (name description : string)
    (aliases : AliasArg) (analyst : string) (bl tk rid rty rel : option string)
    (db db' : DB) (d : PyDict) :
  add_campaign name description aliases analyst bl tk rid rty rel db = (Returned d, db') ->
  succeeded d = true ->
  let i := new_object_id (db_next_oid db) in
  let linked := truthy rid && truthy rty && truthy rel in
  d = [("success", PyBool true); ("message", PyStr "Campaign created successfully!");
       ("id", PyStr i)]
  /\ (exists c,
        campaign_by_name name db' = Some c
        /\ c_id c = Some i /\ c_name c = name /\ c_description c = description
        /\ c_aliases c = add_aliases [] (final_aliases aliases)
        /\ c_relationships c
           = if linked
             then [ {| rel_type := default "" rty; object_id := default "" rid;
                       relationship := inverse (default "" rel) |} ]
             else [])
  /\ db_next_oid db' = S (db_next_oid db)
  /\ (linked = false -> db_objects db' = db_objects db)
  /\ campaign_by_name name db = None.
Proof.
  intros Hrun Hsucc i linked.
  destruct (add_campaign_created _ _ _ _ _ _ _ _ _ _ _ _ Hrun Hsucc)
    as (Hd & Hfound & Hnext & Hobjects & Hnew).
  split_and!; [done | | done | done | done].
  eexists. split; [exact Hfound|]. by split_and!.
Qed.

Lemma add_campaign_creates_witness :
  let run := add_campaign (H := sample_collaborators) "Foo" "a new campaign"
               (AliasStr "a, b ,c, a") "alice" (Some "apt") None
               (Some "x") (Some "Indicator") (Some "Contains") sample_db in
  fst run = Returned [("success", PyBool true);
                      ("message", PyStr "Campaign created successfully!");
                      ("id", PyStr "oid-1")]
  /\ exists c,
       campaign_by_name "Foo" (snd run) = Some c
       /\ c_id c = Some "oid-1"
       /\ c_aliases c = ["a"; "b"; "c"]
       /\ c_relationships c
          = [ {| rel_type := "Indicator"; object_id := "x";
                 relationship := "Contained Within" |} ].
Proof.
  intros run.
  assert (fst run = Returned [("success", PyBool true);
                              ("message", PyStr "Campaign created successfully!");
                              ("id", PyStr "oid-1")]) as Hres
    by (vm_compute; reflexivity).
  destruct (add_campaign_creates (H := sample_collaborators) "Foo" "a new campaign"
              (AliasStr "a, b ,c, a") "alice" (Some "apt") None
              (Some "x") (Some "Indicator") (Some "Contains") sample_db (snd run) _
              (run_eq run _ Hres) eq_refl)
    as (_ & (c & Hfound & Hid & _ & _ & Ha & Hr) & _).
  split; [exact Hres|]. exists c. split_and!; [exact Hfound | exact Hid | exact Ha | exact Hr].
Defined.

(** X5. After a successful creation, every further [add_campaign]
    under the same name, whatever its other arguments, fails with
    "Campaign already exists.", reports the id that the first call
    returned, and leaves the store as the first call left it. *)
Theorem add_campaign_twice `{Collaborators} (name description : string)
    (aliases : AliasArg) (analyst : string) (bl tk rid rty rel : option string)
    (db db' : DB) (d : PyDict) :
  add_campaign name description aliases analyst bl tk rid rty rel db = (Returned d, db') ->
  succeeded d = true ->
  exists i,
    dict_get "id" d = Some (PyStr i)
    /\ forall description2 aliases2 analyst2 bl2 tk2 rid2 rty2 rel2,
         add_campaign name description2 aliases2 analyst2 bl2 tk2 rid2 rty2 rel2 db'
         = (Returned [("success", PyBool false);
                      ("message", PyList ["Campaign already exists."]);
                      ("id", PyStr i)], db').
Proof.
  intros Hrun Hsucc.
  destruct (add_campaign_created _ _ _ _ _ _ _ _ _ _ _ _ Hrun Hsucc)
    as (-> & Hfound & _).
  eexists. split; [reflexivity|]. intros. unfold add_campaign. by rewrite Hfound.
Qed.

Lemma add_campaign_twice_witness :
  let run1 := add_campaign (H := sample_collaborators) "Foo" "a new campaign"
                (AliasStr "a, b ,c") "alice" None None None None None sample_db in
  add_campaign (H := sample_collaborators) "Foo" "another one" AliasOther "bob"
    None None None None None (snd run1)
  = (Returned [("success", PyBool false);
               ("message", PyList ["Campaign already exists."]);
               ("id", PyStr "oid-1")], snd run1).
Proof.
  intros run1.
  assert (fst run1 = Returned [("success", PyBool true);
                               ("message", PyStr "Campaign created successfully!");
                               ("id", PyStr "oid-1")]) as Hres
    by (vm_compute; reflexivity).
  destruct (add_campaign_twice (H := sample_collaborators) "Foo" "a new campaign"
              (AliasStr "a, b ,c") "alice" None None None None None sample_db
              (snd run1) _ (run_eq run1 _ Hres) eq_refl) as (i & Hi & Hagain).
  injection Hi as <-. apply Hagain.
Defined.

(** ** Aliases, status and TTPs *)

Section EditFacts.
Context `{Collaborators} `{CampaignMethods}.

Lemma campaign_save_rejected (c : Campaign) (u : string) (db db' : DB) (e : PyException) :
  campaign_save c u db = (Raised e, db') ->
  db' = db /\ exists msg, e = ValidationError msg /\ validate_campaign c = Some msg.
Proof.
  unfold campaign_save. destruct (validate_campaign c) as [msg|].
  - intros [= <- <-]. eauto.
  - destruct (c_id c); [destruct (existsb _ _)|]; done.
Qed.

Lemma save_and_report_facts (c : Campaign) (a : string) (db : DB) :
  (exists d, fst (save_and_report c a db) = Returned d)
  /\ db_objects (snd (save_and_report c a db)) = db_objects db
  /\ (call_succeeded (fst (save_and_report c a db)) = false ->
      snd (save_and_report c a db) = db)
  /\ (call_succeeded (fst (save_and_report c a db)) = true <-> validate_campaign c = None).
Proof.
  unfold save_and_report.
  pose proof (campaign_save_objects c a db) as Hobj.
  destruct (campaign_save c a db) as [[c'|e] db'] eqn:S; simpl in *.
  - split_and!; [by eexists | done | done |]. split; [intros _ | done].
    unfold campaign_save in S. by destruct (validate_campaign c).
  - apply campaign_save_rejected in S as (-> & msg & -> & Hv). rewrite Hv.
    split_and!; [by eexists | done | done | done].
Qed.


End EditFacts.

(** X6. [modify_campaign_aliases], [activate_campaign] and
    [deactivate_campaign] always return a dict, touch nothing but the
    Campaign collection, and are all or nothing: when the result is
    not a success the store is as it was.  They succeed only for a
    name that a Campaign has, and for an unknown name the result is
    the bare [{'success': False}], without a message. *)
Theorem campaign_edits_all_or_nothing `{Collaborators} `{CampaignMethods}
    (name : string) (tags : list string) (analyst : string) (db : DB) :
  Forall (fun run : Outcome PyDict * DB =>
            (exists d, fst run = Returned d)
            /\ db_objects (snd run) = db_objects db
            /\ (call_succeeded (fst run) = false -> snd run = db)
            /\ (call_succeeded (fst run) = true -> is_Some (campaign_by_name name db))
            /\ (campaign_by_name name db = None ->
                run = (Returned [("success", PyBool false)], db)))
    [ modify_campaign_aliases name tags analyst db;
      activate_campaign name analyst db;
      deactivate_campaign name analyst db ].
Proof.
  unfold modify_campaign_aliases, activate_campaign, deactivate_campaign.
  destruct (campaign_by_name name db) as [c|]; cbv zeta.
  - repeat apply Forall_cons_2; [| | | apply Forall_nil_2];
      match goal with |- context [@save_and_report _ ?c' ?a ?db0] =>
        destruct (save_and_report_facts c' a db0) as (? & ? & ? & _)
      end; (split_and!; [done | done | done | by eexists | done]).
  - repeat apply Forall_cons_2; [| | | apply Forall_nil_2];
      (split_and!; [by eexists | done | done | done | done]).
Qed.

Lemma campaign_edits_all_or_nothing_witness :
  modify_campaign_aliases (H := sample_collaborators) (H0 := sample_campaign_methods)
    "Nope" ["x"] "alice" sample_db
  = (Returned [("success", PyBool false)], sample_db)
  /\ db_objects (snd (activate_campaign (H := sample_collaborators)
                        (H0 := sample_campaign_methods) "Bar" "alice" sample_db))
     = db_objects sample_db.
Proof.
  pose proof (campaign_edits_all_or_nothing (H := sample_collaborators)
                (H0 := sample_campaign_methods) "Nope" ["x"] "alice" sample_db) as Hnope.
  pose proof (campaign_edits_all_or_nothing (H := sample_collaborators)
                (H0 := sample_campaign_methods) "Bar" [] "alice" sample_db) as Hbar.
  apply Forall_cons_1 in Hnope as [(_ & _ & _ & _ & Hnone) _].
  apply Forall_cons_1 in Hbar as [_ Hbar].
  apply Forall_cons_1 in Hbar as [(_ & Hobj & _) _].
  split; [apply Hnone; reflexivity | exact Hobj].
Defined.



(** ** Reach of the propagation *)

Section ReachFacts.
Context `{Collaborators}.


Lemma addto_related_step_skipped (item : EmbeddedCampaign) (a : string) (db : DB)
    (r : Relationship) :
  class_from_type (rel_type r) = false
  \/ db_objects db !! (rel_type r, object_id r) = None ->
  addto_related_step item a db r = db.
Proof.
  unfold addto_related_step. intros [->| ->]; [done|].
  by destruct (class_from_type (rel_type r)).
Qed.

End ReachFacts.



(** X9. A relationship whose type tag names no class, or whose id
    does not resolve, is skipped without error: when none of the
    relationships of the source resolves, propagation leaves the store
    exactly as it was. *)
Theorem propagation_skips_unresolved `{Collaborators} (o : TopLevel)
    (item : EmbeddedCampaign) (a : string) (db : DB) :
  (forall r, r ∈ relationships (tl_doc o) ->
             class_from_type (rel_type r) = false
             \/ db_objects db !! (rel_type r, object_id r) = None) ->
  campaign_addto_related o item a db = db.
Proof.
  unfold campaign_addto_related.
  induction (relationships (tl_doc o)) as [|r rs IH]; simpl; intros Hr; [done|].
  rewrite addto_related_step_skipped by (apply Hr; by left).
  apply IH. intros r' Hr'. apply Hr. by right.
Qed.

Lemma propagation_skips_unresolved_witness :
  let o := {| tl_type := "Sample"; tl_id := "s";
              tl_doc := {| campaign := [];
                           relationships :=
                             [ {| rel_type := "Certificate"; object_id := "x";
                                  relationship := "Related To" |};
                               {| rel_type := "Domain"; object_id := "gone";
                                  relationship := "Related To" |} ] |} |} in
  campaign_addto_related (H := sample_collaborators) o
    {| ec_name := "Foo"; ec_confidence := "low"; ec_description := "";
       ec_analyst := "alice"; ec_date := 10 |} "alice" sample_db
  = sample_db.
Proof.
  intros o. apply (propagation_skips_unresolved (H := sample_collaborators)).
  intros r Hr. simpl in Hr. apply elem_of_cons in Hr as [->|Hr].
  - left. reflexivity.
  - apply list_elem_of_singleton in Hr as ->. right. reflexivity.
Defined.

(** ** What a failed attribution call leaves behind *)

(** X10. [campaign_add] always returns a dict.  When the call does not
    succeed, the store is as it was, with one exception: propagation
    was asked for, the embed step succeeded and the save of the target
    was rejected; then the result is 'Invalid value: ...' and the
    store is the one that propagation produced.  When the embed step
    on the target fails, its message is returned at once: nothing is
    propagated or saved, whatever [related] says. *)
Theorem campaign_add_failure_effects `{Collaborators} (n c d : string) (rel : bool)
    (a : string) (ctype oid : option string) (obj : option TopLevel) (u : bool)
    (now : Z) (db : DB) :
  let item := {| ec_name := n; ec_confidence := c; ec_description := d;
                 ec_analyst := a; ec_date := now |} in
  let run := campaign_add n c d rel a ctype oid obj u now db in
  (exists r, fst run = Returned r)
  /\ (call_succeeded (fst run) = false ->
      snd run = db
      \/ (rel = true
          /\ exists o e,
               campaign_add_target ctype oid obj db = inl o
               /\ validate (fst (obj_add_campaign o item u)) = Some e
               /\ fst run = Returned [("success", PyBool false);
                                      ("message", PyStr ("Invalid value: " +:+ e))]
               /\ snd run
                  = campaign_addto_related (fst (obj_add_campaign o item u)) item a db))
  /\ (forall o,
        campaign_add_target ctype oid obj db = inl o ->
        r_success (snd (obj_add_campaign o item u)) = false ->
        run = (Returned [("success", PyBool false);
                         ("message", PyStr (r_message (snd (obj_add_campaign o item u))))],
               db)).
Proof.
  intros item run. subst run.
  destruct (campaign_add_target ctype oid obj db) as [o|p] eqn:Ht.
  - rewrite (campaign_add_resolved _ _ _ _ _ _ _ _ _ _ _ _ Ht). fold item.
    destruct (r_success (snd (obj_add_campaign o item u))) eqn:Hr.
    + destruct (validate (fst (obj_add_campaign o item u))) as [e|] eqn:Hv; simpl.
      * split_and!; [by eexists | | intros o' [= <-] Hf; congruence].
        intros _. destruct rel; [right | by left].
        split; [done|]. exists o, e. by split_and!.
      * split_and!; [by eexists | done | intros o' [= <-] Hf; congruence].
    + simpl. split_and!; [by eexists | by left |].
      intros o' [= <-] _. done.
  - unfold campaign_add. rewrite Ht. simpl.
    split_and!; [by eexists | by left | done].
Qed.

Lemma campaign_add_failure_effects_witness :
  let run := campaign_add (H := sample_collaborators) "   " "low" "" true "alice"
               (Some "Indicator") (Some "x") None true 10 sample_db in
  run = (Returned [("success", PyBool false); ("message", PyStr "Campaign is invalid")],
         sample_db).
Proof.
  intros run.
  destruct (campaign_add_failure_effects (H := sample_collaborators) "   " "low" "" true
              "alice" (Some "Indicator") (Some "x") None true 10 sample_db)
    as (_ & _ & Hembed).
  apply (Hembed {| tl_type := "Indicator"; tl_id := "x"; tl_doc := indicator_x |});
    reflexivity.
Defined.




(** X12. [campaign_edit] with propagation hands the attribution to the
    related objects whether or not the target holds it: for a target
    without an entry of the campaign name and with one relationship,
    to a valid object, the call succeeds, the target is stored as it
    was, still without the entry, and the related object now holds an
    entry of that name. *)
Theorem campaign_edit_propagates_without_entry `{Collaborators} (t i n c d : string)
    (date : Z) (a : string) (db : DB) (o : TopLevel) (r : Relationship) (C : Document) :
  let item := {| ec_name := n; ec_confidence := c; ec_description := d;
                 ec_analyst := a; ec_date := date |} in
  let C' := fst (obj_add_campaign (related_object r C) item true) in
  let run := campaign_edit t i n c d date true a db in
  class_from_id t i db = Some o ->
  has_campaign n (campaign (tl_doc o)) = false ->
  relationships (tl_doc o) = [r] ->
  class_from_type (rel_type r) = true ->
  db_objects db !! (rel_type r, object_id r) = Some C ->
  (t, i) <> (rel_type r, object_id r) ->
  embed_check item = None ->
  validate C' = None ->
  validate o = None ->
  call_succeeded (fst run) = true
  /\ db_objects (snd run) !! (t, i) = Some (tl_doc o)
  /\ db_objects (snd run) !! (rel_type r, object_id r) = Some (tl_doc C')
  /\ has_campaign n (campaign (tl_doc C')) = true.
Proof.
  intros item C' run Ho Hn Hrels Hct HC Hne He HvC Hvo.
  assert (run = (Returned [("success", PyBool true);
                           ("html", PyStr (format_campaign o item a))],
                 with_objects (campaign_addto_related o item a db)
                   (<[(t, i) := tl_doc o]>
                      (db_objects (campaign_addto_related o item a db))))) as ->.
  { subst run. unfold campaign_edit. rewrite Ho. fold item.
    unfold obj_edit_campaign. simpl. rewrite Hn. unfold save. rewrite Hvo.
    apply class_from_id_loaded in Ho as (_ & -> & _). done. }
  assert (campaign_addto_related o item a db
          = with_objects db (<[(rel_type r, object_id r) := tl_doc C']> (db_objects db)))
    as ->.
  { unfold campaign_addto_related. rewrite Hrels. simpl.
    by apply addto_related_step_saved. }
  simpl. split_and!; [done | apply lookup_insert_eq | |].
  - rewrite lookup_insert_ne by done. apply lookup_insert_eq.
  - apply (obj_add_campaign_has (related_object r C) item true).
    by apply obj_add_campaign_embedded.
Qed.

Lemma campaign_edit_propagates_without_entry_witness :
  let db := with_objects sample_db
              (<[("Domain", "y") :=
                   {| campaign := [];
                      relationships :=
                        [ {| rel_type := "Sample"; object_id := "s";
                             relationship := "Related To" |} ] |}]>
                 (db_objects sample_db)) in
  let run := campaign_edit (H := sample_collaborators) "Domain" "y" "Zed" "high" "" 20
               true "alice" db in
  call_succeeded (fst run) = true
  /\ (campaign <$> db_objects (snd run) !! ("Domain", "y")) = Some []
  /\ (has_campaign "Zed" <$> (campaign <$> db_objects (snd run) !! ("Sample", "s")))
     = Some true.
Proof.
  intros db run.
  destruct (campaign_edit_propagates_without_entry (H := sample_collaborators)
              "Domain" "y" "Zed" "high" "" 20 "alice" db
              {| tl_type := "Domain"; tl_id := "y";
                 tl_doc := {| campaign := [];
                              relationships :=
                                [ {| rel_type := "Sample"; object_id := "s";
                                     relationship := "Related To" |} ] |} |}
              {| rel_type := "Sample"; object_id := "s"; relationship := "Related To" |}
              sample_s)
    as (Hok & Ho & HC & Hhas); try reflexivity; try discriminate.
  fold run in Hok, Ho, HC. simpl in HC.
  split_and!; [exact Hok | by rewrite Ho |].
  rewrite HC. vm_compute. reflexivity.
Defined.

(** ** The count columns of the Campaign listing *)

Lemma prefix_comparable (a b s : string) :
  String.prefix a s = true -> String.prefix b s = true ->
  String.prefix a b = true \/ String.prefix b a = true.
Proof.
  revert b s. induction a as [|x a IH]; intros b s.
  - intros _ _. left. by destruct b.
  - destruct s as [|y s]; simpl; [done|].
    destruct (ascii_dec x y) as [->|]; [|done]. intros Ha.
    destruct b as [|z b]; [intros _; by right|].
    destruct (ascii_dec z y) as [->|]; [|done]. intros Hb. simpl.
    destruct (ascii_dec y y); [|done]. by apply IH with s.
Qed.

(** No field name starts with two of the type names. *)
Lemma count_ctypes_exclusive (field : JTableField) (c1 c2 : string) :
  c1 ∈ count_ctypes -> c2 ∈ count_ctypes ->
  names_count_of c1 field = true -> names_count_of c2 field = true ->
  c1 = c2.
Proof.
  unfold names_count_of, count_ctypes. intros H1 H2 P1 P2.
  destruct (prefix_comparable _ _ _ P1 P2) as [Hp|Hp]; revert Hp; clear P1 P2;
    repeat (apply elem_of_cons in H1 as [->|H1]);
    try (by apply elem_of_nil in H1);
    repeat (apply elem_of_cons in H2 as [->|H2]);
    try (by apply elem_of_nil in H2);
    vm_compute; congruence.
Qed.

Section CountLinkFacts.
Variable reverse : string -> string.

Lemma link_count_field_name (ctype : string) (field : JTableField) :
  fieldname (link_count_field reverse ctype field) = fieldname field.
Proof. unfold link_count_field. by destruct (names_count_of ctype field). Qed.

Lemma make_counts_clickable_fields (cs : list string) (fields : list JTableField) :
  fold_left (fun fields ctype => link_count_fields reverse ctype fields) cs fields
  = (fun field => fold_left (fun f c => link_count_field reverse c f) cs field) <$> fields.
Proof.
  revert fields. induction cs as [|c cs IH]; intros fields; simpl.
  - by rewrite list_fmap_id.
  - rewrite IH. unfold link_count_fields. by rewrite <- list_fmap_compose.
Qed.

Lemma link_count_field_others (cs : list string) (field : JTableField) :
  (forall c, c ∈ cs -> names_count_of c field = false) ->
  fold_left (fun f c => link_count_field reverse c f) cs field = field.
Proof.
  induction cs as [|c cs IH]; simpl; intros Hc; [done|].
  unfold link_count_field at 2. rewrite Hc by (by left).
  apply IH. intros c' Hc'. apply Hc. by right.
Qed.

Lemma link_count_field_first (cs : list string) (field : JTableField) :
  NoDup cs ->
  (forall c1 c2, c1 ∈ cs -> c2 ∈ cs ->
                 names_count_of c1 field = true -> names_count_of c2 field = true ->
                 c1 = c2) ->
  fold_left (fun f c => link_count_field reverse c f) cs field
  = match List.find (fun c => names_count_of c field) cs with
    | Some c => {| fieldname := fieldname field;
                   display := Some (count_display (reverse (listing_view c)) c) |}
    | None => field
    end.
Proof.
  induction cs as [|c cs IH]; simpl; intros Hnd Hex; [done|].
  apply NoDup_cons in Hnd as [Hc Hnd].
  destruct (names_count_of c field) eqn:Hm.
  - unfold link_count_field at 2. rewrite Hm.
    apply link_count_field_others. intros c' Hc'.
    destruct (names_count_of c' _) eqn:Hm'; [|done].
    unfold names_count_of in Hm'. simpl in Hm'.
    assert (c = c') as <-; [|done].
    apply Hex; [by left | by right | done | done].
  - unfold link_count_field at 2. rewrite Hm. apply IH; [done|].
    intros c1 c2 H1 H2. apply Hex; by right.
Qed.

End CountLinkFacts.

(** X14. The loop over the ten types leaves the fields in place, with
    their names.  A field whose name starts with a quote followed by
    one of the types gets as display the link to the listing of that
    type, whether or not it is a count field; every other field is
    left as it was.  No name starts with two of the types, so the
    order of the types does not matter and no display is written
    twice. *)
Theorem count_links_by_type (reverse : string -> string) (fields : list JTableField) :
  fieldname <$> make_counts_clickable reverse fields = fieldname <$> fields
  /\ make_counts_clickable reverse fields
     = (fun field =>
          match List.find (fun c => names_count_of c field) count_ctypes with
          | Some c => {| fieldname := fieldname field;
                         display := Some (count_display (reverse (listing_view c)) c) |}
          | None => field
          end) <$> fields
  /\ (forall field c1 c2,
        c1 ∈ count_ctypes -> c2 ∈ count_ctypes ->
        names_count_of c1 field = true -> names_count_of c2 field = true -> c1 = c2).
Proof.
  assert (make_counts_clickable reverse fields
          = (fun field =>
               match List.find (fun c => names_count_of c field) count_ctypes with
               | Some c => {| fieldname := fieldname field;
                              display := Some (count_display (reverse (listing_view c)) c) |}
               | None => field
               end) <$> fields) as Heq.
  { unfold make_counts_clickable. rewrite make_counts_clickable_fields.
    apply list_fmap_ext. intros j field _.
    apply link_count_field_first; [compute_done|].
    apply count_ctypes_exclusive. }
  split_and!; [| exact Heq | apply count_ctypes_exclusive].
  rewrite Heq, <- list_fmap_compose. apply list_fmap_ext. intros j field _.
  unfold compose. by destruct (List.find (fun c => names_count_of c field) count_ctypes).
Qed.

Lemma count_links_by_type_witness :
  make_counts_clickable (fun view => "/" +:+ view +:+ "/")
    [ {| fieldname := "'name'"; display := None |};
      {| fieldname := "'ip_count'"; display := None |} ]
  = [ {| fieldname := "'name'"; display := None |};
      {| fieldname := "'ip_count'";
         display := Some (count_display "/crits.ips.views.ips_listing/" "ip") |} ].
Proof.
  destruct (count_links_by_type (fun view => "/" +:+ view +:+ "/")
              [ {| fieldname := "'name'"; display := None |};
                {| fieldname := "'ip_count'"; display := None |} ])
    as (_ & Heq & _).
  rewrite Heq. reflexivity.
Defined.

(** ** Removing a Campaign *)

Lemma find_id_deleted (i : string) (l : list Campaign) :
  List.find (has_id i)
    (List.filter (fun c => negb (bool_decide (c_id c = Some i))) l) = None.
Proof.
  induction l as [|c l IH]; simpl; [done|].
  destruct (bool_decide (c_id c = Some i)) eqn:E; simpl; [done|].
  unfold has_id at 1. by rewrite E.
Qed.

(** X13. [remove_campaign] answers 'Campaign not found.' for a name
    that no Campaign has and leaves the store as it was.  For a name
    that a Campaign has, it succeeds: the documents with the id of
    that Campaign are gone from the collection and all others stay;
    the collections of the other objects are not touched, so that
    attributions which name the Campaign stay on the objects that hold
    them. *)
Theorem remove_campaign_effects (name analyst : string) (db : DB) :
  (campaign_by_name name db = None ->
   remove_campaign name analyst db
   = (Returned [("success", PyBool false); ("message", PyStr "Campaign not found.")], db))
  /\ (forall c i,
        campaign_by_name name db = Some c -> c_id c = Some i ->
        fst (remove_campaign name analyst db) = Returned [("success", PyBool true)]
        /\ campaign_by_id i (snd (remove_campaign name analyst db)) = None
        /\ db_objects (snd (remove_campaign name analyst db)) = db_objects db
        /\ (forall other,
              other ∈ db_campaigns (snd (remove_campaign name analyst db))
              <-> other ∈ db_campaigns db /\ c_id other <> Some i)).
Proof.
  unfold remove_campaign. split; [by intros ->|].
  intros c i -> Hid. simpl. unfold campaign_delete, campaign_by_id. simpl. rewrite Hid.
  split_and!; [done | apply find_id_deleted | done |].
  intros other. rewrite !list_elem_of_In, List.filter_In, negb_true_iff.
  rewrite bool_decide_eq_false. tauto.
Qed.

Lemma remove_campaign_effects_witness :
  remove_campaign "Foo" "alice" sample_db
  = (Returned [("success", PyBool false); ("message", PyStr "Campaign not found.")],
     sample_db)
  /\ campaign_by_id "oid-0"
       (snd (remove_campaign "Bar" "alice" sample_db)) = None
  /\ db_objects (snd (remove_campaign "Bar" "alice" sample_db))
     = db_objects sample_db.
Proof.
  destruct (remove_campaign_effects "Foo" "alice" sample_db)
    as [Hnone _].
  destruct (remove_campaign_effects "Bar" "alice" sample_db)
    as [_ Hsome].
  destruct (Hsome campaign_bar "oid-0") as (_ & Hgone & Hobj & _);
    [reflexivity | reflexivity |].
  split_and!; [apply Hnone; reflexivity | exact Hgone | exact Hobj].
Defined.

(** ** How [add_campaign] can raise *)



(** X16. [campaign_add] called with a type and an id does what it does
    when called with the object that they resolve to: the two ways of
    naming the target give the same result and the same store, and
    with an instance the type and id arguments are not looked at. *)
Theorem campaign_add_instance_or_id `{Collaborators} (n c d : string) (rel : bool)
    (a t i : string) (ctype oid : option string) (o : TopLevel) (u : bool) (now : Z)
    (db : DB) :
  class_from_id t i db = Some o ->
  t <> "" -> i <> "" ->
  campaign_add n c d rel a (Some t) (Some i) None u now db
  = campaign_add n c d rel a ctype oid (Some o) u now db.
Proof.
  intros Ho Ht Hi.
  assert (campaign_add_target (Some t) (Some i) None db = inl o) as H1.
  { unfold campaign_add_target. simpl.
    apply String.eqb_neq in Ht, Hi. rewrite Ht, Hi. simpl. by rewrite Ho. }
  rewrite (campaign_add_resolved _ _ _ _ _ _ _ _ _ _ _ _ H1).
  by rewrite (campaign_add_resolved n c d rel a ctype oid (Some o) u now db o).
Qed.

Lemma campaign_add_instance_or_id_witness :
  campaign_add (H := sample_collaborators) "Foo" "low" "" true "alice"
    (Some "Indicator") (Some "x") None true 10 sample_db
  = campaign_add (H := sample_collaborators) "Foo" "low" "" true "alice"
      None (Some "ignored")
      (Some {| tl_type := "Indicator"; tl_id := "x"; tl_doc := indicator_x |})
      true 10 sample_db.
Proof.
  apply (campaign_add_instance_or_id (H := sample_collaborators));
    [reflexivity | discriminate | discriminate].
Defined.
